(** * The endpoint core of eRPC ([src/rpc_impl/rpc.cc])

    A shallow embedding of the methods of [Rpc<Transport_>]: the
    constructor and destructor, [generate_start_seq], [bury_session], the two
    [is_session_ptr_*] predicates, [handle_session_management] and the two
    datapath stubs.  C++ objects reached through pointers live in an explicit
    store indexed by addresses; a method is a computation over the pair of the
    [Rpc] object it runs on and the process it runs in. *)

From Stdlib Require Import Ascii.
From stdpp Require Import gmap strings list fin_maps pretty.

Open Scope N_scope.

(** ** Values

    [uint8_t], [uint32_t], [uint64_t] and [size_t] values are numbers of [N]:
    the translation unit compares and masks them and never does arithmetic on
    them, so no wrap-around arises.  A pointer is an address, [nullptr] is
    address 0. *)

Definition nullptr : N := 0.

(** The exceptions this translation unit throws or lets through.
    [std::vector::at] throws [std::out_of_range]. *)
Inductive exn : Type :=
| runtime_error (what : string)
| invalid_argument (what : string)
| out_of_range (what : string).

(** How a call ends: it returns, an exception leaves it, an [assert] stops the
    process, or it runs into undefined behaviour (a pointer to an object that
    is not there is dereferenced or deleted). *)
Inductive outcome (A : Type) : Type :=
| Ret (a : A)
| Throw (e : exn)
| Abort
| Undef.

Arguments Ret {A} a.
Arguments Throw {A} e.
Arguments Abort {A}.
Arguments Undef {A}.

(** ** Computations: a state and an outcome

    The state is returned with every outcome: what was allocated when an
    exception leaves a constructor is what the process is left with. *)

Definition Comp (S A : Type) : Type := S → outcome A * S.

Definition comp_ret {S A} (a : A) : Comp S A := λ s, (Ret a, s).

Definition comp_bind {S A B} (f : A → Comp S B) (m : Comp S A) : Comp S B :=
  λ s, match m s with
       | (Ret a, s') => f a s'
       | (Throw e, s') => (Throw e, s')
       | (Abort, s') => (Abort, s')
       | (Undef, s') => (Undef, s')
       end.

#[global] Instance Comp_mret {S} : MRet (Comp S) := @comp_ret S.
#[global] Instance Comp_mbind {S} : MBind (Comp S) := @comp_bind S.

Definition throw {S A} (e : exn) : Comp S A := λ s, (Throw e, s).
Definition abort {S A} : Comp S A := λ s, (Abort, s).
Definition undef {S A} : Comp S A := λ s, (Undef, s).
Definition gets {S A} (f : S → A) : Comp S A := λ s, (Ret (f s), s).
Definition modify {S} (f : S → S) : Comp S unit := λ s, (Ret tt, f s).

(** [assert(b)] *)
Definition assert {S} (b : bool) : Comp S unit :=
  if b then mret tt else abort.

(** [try { m } catch (std::runtime_error e) { h e }]: the handler runs in the
    state the exception left; an exception of another class passes through.
    The handler receives a copy of static type [std::runtime_error]. *)
Definition try_catch_runtime_error {S A} (m : Comp S A) (h : string → Comp S A)
  : Comp S A :=
  λ s, match m s with
       | (Throw (runtime_error what), s') => h what s'
       | r => r
       end.

(** ** Sessions and session-management packets

    [Session], [SessionMgmtPkt] and [SessionMgmtHook] are declared in headers
    that are not part of this translation unit.  The records below have the
    members [rpc.cc] reads and writes, under their names. *)

(** [Session::Role] *)
Inductive Role : Type := kClient | kServer.

#[global] Instance Role_eq_dec : EqDecision Role.
Proof. solve_decision. Defined.

(** One identity block: the [client] or [server] member of a session or of a
    session-management packet. *)
Module SessionMetadata.
Record t : Type := mk {
  hostname : string;
  app_tid : N;
  session_num : N
}.
End SessionMetadata.

(** Modelled from the spec: a session has a role tag, an identity block per
    role and, for [is_in_flight] to report, the flag "in-flight" ("an
    unacknowledged outstanding request exists"). *)
Module Session.
Record t : Type := mk {
  role : Role;
  client : SessionMetadata.t;
  server : SessionMetadata.t;
  in_flight : bool
}.
End Session.

(** Modelled from the spec: the packet kinds are "one of four kinds
    {ConnectReq, ConnectResp, DisconnectReq, DisconnectResp}", the labels of
    the [switch] in [handle_session_management]. *)
Inductive SessionMgmtPktType : Type :=
| kConnectReq
| kConnectResp
| kDisconnectReq
| kDisconnectResp.

(** Modelled from the spec: [session_mgmt_is_pkt_type_req] is declared outside
    this translation unit; the two request kinds are the packets a client
    authors. *)
Definition session_mgmt_is_pkt_type_req (t : SessionMgmtPktType) : bool :=
  match t with
  | kConnectReq | kDisconnectReq => true
  | kConnectResp | kDisconnectResp => false
  end.

(** A session-management packet: its kind and the two identity blocks. *)
Module SessionMgmtPkt.
Record t : Type := mk {
  pkt_type : SessionMgmtPktType;
  client : SessionMetadata.t;
  server : SessionMetadata.t
}.
End SessionMgmtPkt.

(** The inbox the endpoint registers with the Nexus.  The mutex is a flag:
    the model is sequential, [lock] sets it and [unlock] clears it. *)
Record SessionMgmtHook : Type := mkHook {
  hook_app_tid : N;
  session_mgmt_ev_counter : N;
  session_mgmt_mutex : bool;
  session_mgmt_pkt_list : list SessionMgmtPkt.t
}.

(** ** The collaborators of the endpoint *)

(** Modelled from the spec: the Nexus ([nexus.h] is not in this translation
    unit) is the shared directory, "registry mapping application-thread
    identities to endpoints"; [rpc.cc] reads its [hostname], asks
    [app_tid_exists] and calls [register_hook]. *)
Record Nexus : Type := mkNexus {
  nexus_hostname : string;
  reg_hooks : gset N
}.

(** Modelled from the spec: [Nexus::app_tid_exists], is the
    application-thread id "already registered at the directory"? *)
Definition Nexus_app_tid_exists (nx : Nexus) (tid : N) : bool :=
  bool_decide (tid ∈ reg_hooks nx).

(** Modelled from the spec: [Nexus::register_hook], "register a hook
    {application-thread id} with the directory". *)
Definition Nexus_register_hook (nx : Nexus) (tid : N) : Nexus :=
  {| nexus_hostname := nexus_hostname nx; reg_hooks := {[tid]} ∪ reg_hooks nx |}.

(** Modelled from the spec: the allocator ([HugeAllocator] is not in this
    translation unit) is created with an initial size, a NUMA node and the
    register/deregister primitives of one transport; it holds the chunks it
    has registered and, when destroyed, deregisters every one of them with
    that transport's primitive. *)
Record HugeAllocator : Type := mkHugeAllocator {
  initial_size : N;
  alloc_numa_node : N;
  mr_owner : N;
  chunks : list N
}.

(** What the instrumented process records, in the order it happens. *)
Inductive Event : Type :=
| EvNewTransport (p : N)
| EvNewHugeAlloc (p : N)
| EvDeregMr (transport : N) (chunk : N)
| EvDeleteHugeAlloc (p : N)
| EvDeleteTransport (p : N)
| EvDeleteSession (p : N)
| EvHandler (kind : SessionMgmtPktType) (pkt : SessionMgmtPkt.t)
| EvFree (pkt : SessionMgmtPkt.t).

(** The constants of [rpc.h] and [common.h] that [rpc.cc] uses. *)
Class Constants : Type := {
  kInvalidAppTid : N;
  kMaxPhyPorts : N;
  kMaxNumaNodes : N;
  kInitialHugeAllocSize : N;
  kStartSeqMask : N
}.

(** The template parameter [Transport_]: its constructor, bound to an
    application-thread id and a port, and the second initialisation phase,
    which takes memory from the allocator it is given and may throw: it ends
    with an outcome, the transport as it then is and the chunks the allocator
    then holds.  [HugeAllocator_reserve size numa] are the chunks a new
    allocator registers for its initial size. *)
Class TransportIface (T : Type) : Type := {
  Transport_new : N → N → T;
  init_hugepage_structures : T → HugeAllocator → outcome unit * (T * list N);
  HugeAllocator_reserve : N → N → list N
}.

(** The private random source [slow_rand]. *)
Class RandIface (R : Type) : Type := {
  SlowRand_new : R;
  next_u64 : R → N * R
}.

(** The four packet handlers are defined in other translation units.  They
    are taken to return, and to work on the session table and on the session
    objects: not on the hook, whose list the caller is walking under the
    hook's lock, and not on the identity of the endpoint. *)
Record SessionTable : Type := mkSessionTable {
  tbl_vec : list N;
  tbl_sessions : gmap N Session.t
}.

Class SmHandlers : Type := {
  handle_session_connect_req : SessionMgmtPkt.t → SessionTable → SessionTable;
  handle_session_connect_resp : SessionMgmtPkt.t → SessionTable → SessionTable;
  handle_session_disconnect_req : SessionMgmtPkt.t → SessionTable → SessionTable;
  handle_session_disconnect_resp : SessionMgmtPkt.t → SessionTable → SessionTable
}.

(** [for (x : l) { f x }] *)
Fixpoint for_each {S A} (f : A → Comp S unit) (l : list A) : Comp S unit :=
  match l with
  | [] => mret tt
  | x :: l' => f x ;; for_each f l'
  end.

(** [std::find(v.begin(), v.end(), x)]: the position of the first element
    equal to [x]; [None] stands for [v.end()]. *)
Fixpoint std_find (v : list N) (x : N) : option nat :=
  match v with
  | [] => None
  | y :: v' => if y =? x then Some 0%nat else S <$> std_find v' x
  end.

(** An address no object of the map lives at, and not [nullptr]. *)
Definition fresh_addr {X} (m : gmap N X) : N := fresh ({[nullptr]} ∪ dom m).

Section Endpoint.

Context {K : Constants} {T R : Type} {TI : TransportIface T} {RI : RandIface R}.
Context {SH : SmHandlers}.

(** ** The process and the endpoint object *)

(** The part of the process the endpoint works in: the user id and, class by
    class, the live objects by address (an address names an object within its
    class), and the record of events. *)
Record Proc : Type := mkProc {
  uid : N;
  nexuses : gmap N Nexus;
  transports : gmap N T;
  allocators : gmap N HugeAllocator;
  sessions : gmap N Session.t;
  trace : list Event
}.

(** The data members of [Rpc<Transport_>]. *)
Record Rpc : Type := mkRpc {
  nexus : N;
  context : N;
  app_tid : N;
  session_mgmt_handler : N;
  phy_port : N;
  numa_node : N;
  transport : N;
  huge_alloc : N;
  sm_hook : SessionMgmtHook;
  session_vec : list N;
  slow_rand : R
}.

Record World : Type := mkWorld {
  this : Rpc;
  proc : Proc
}.

Definition with_proc (f : Proc → Proc) (w : World) : World :=
  {| this := this w; proc := f (proc w) |}.

Definition with_this (f : Rpc → Rpc) (w : World) : World :=
  {| this := f (this w); proc := proc w |}.

Definition set_nexuses (m : gmap N Nexus) (p : Proc) : Proc :=
  mkProc (uid p) m (transports p) (allocators p) (sessions p) (trace p).

Definition set_transports (m : gmap N T) (p : Proc) : Proc :=
  mkProc (uid p) (nexuses p) m (allocators p) (sessions p) (trace p).

Definition set_allocators (m : gmap N HugeAllocator) (p : Proc) : Proc :=
  mkProc (uid p) (nexuses p) (transports p) m (sessions p) (trace p).

Definition set_sessions (m : gmap N Session.t) (p : Proc) : Proc :=
  mkProc (uid p) (nexuses p) (transports p) (allocators p) m (trace p).

Definition add_event (e : Event) (p : Proc) : Proc :=
  mkProc (uid p) (nexuses p) (transports p) (allocators p) (sessions p)
         (trace p ++ [e]).

Definition set_transport (t : N) (r : Rpc) : Rpc :=
  mkRpc (nexus r) (context r) (app_tid r) (session_mgmt_handler r) (phy_port r)
        (numa_node r) t (huge_alloc r) (sm_hook r) (session_vec r) (slow_rand r).

Definition set_huge_alloc (a : N) (r : Rpc) : Rpc :=
  mkRpc (nexus r) (context r) (app_tid r) (session_mgmt_handler r) (phy_port r)
        (numa_node r) (transport r) a (sm_hook r) (session_vec r) (slow_rand r).

Definition set_sm_hook (h : SessionMgmtHook) (r : Rpc) : Rpc :=
  mkRpc (nexus r) (context r) (app_tid r) (session_mgmt_handler r) (phy_port r)
        (numa_node r) (transport r) (huge_alloc r) h (session_vec r) (slow_rand r).

Definition set_session_vec (v : list N) (r : Rpc) : Rpc :=
  mkRpc (nexus r) (context r) (app_tid r) (session_mgmt_handler r) (phy_port r)
        (numa_node r) (transport r) (huge_alloc r) (sm_hook r) v (slow_rand r).

Definition set_slow_rand (g : R) (r : Rpc) : Rpc :=
  mkRpc (nexus r) (context r) (app_tid r) (session_mgmt_handler r) (phy_port r)
        (numa_node r) (transport r) (huge_alloc r) (sm_hook r) (session_vec r) g.

(** ** Primitive steps *)

(** [getuid()] *)
Definition getuid : Comp World N := gets (λ w, uid (proc w)).

(** Reading a data member of [*this]. *)
Definition member {A} (f : Rpc → A) : Comp World A := gets (λ w, f (this w)).

Definition log (e : Event) : Comp World unit := modify (with_proc (add_event e)).

(** [nexus->...]: reading through a pointer to the shared Nexus. *)
Definition deref_nexus (p : N) : Comp World Nexus :=
  λ w, match nexuses (proc w) !! p with
       | Some nx => (Ret nx, w)
       | None => (Undef, w)
       end.

(** [session->...] *)
Definition deref_session (p : N) : Comp World Session.t :=
  λ w, match sessions (proc w) !! p with
       | Some s => (Ret s, w)
       | None => (Undef, w)
       end.

(** [new Transport_(app_tid, phy_port)] *)
Definition new_Transport (tid port : N) : Comp World N :=
  λ w, let p := fresh_addr (transports (proc w)) in
       (Ret p,
        with_proc (λ pr, add_event (EvNewTransport p)
                           (set_transports (<[p := Transport_new tid port]> (transports pr)) pr))
                  w).

(** [new HugeAllocator(size, numa, t->reg_mr_func, t->dereg_mr_func)]: the
    two primitives are read through the transport pointer. *)
Definition new_HugeAllocator (size numa t : N) : Comp World N :=
  λ w, match transports (proc w) !! t with
       | None => (Undef, w)
       | Some _ =>
           let p := fresh_addr (allocators (proc w)) in
           let a := mkHugeAllocator size numa t (HugeAllocator_reserve size numa) in
           (Ret p,
            with_proc (λ pr, add_event (EvNewHugeAlloc p)
                               (set_allocators (<[p := a]> (allocators pr)) pr))
                      w)
       end.

(** One call of the deregistration primitive of transport [owner]. *)
Definition dereg_mr (owner chunk : N) : Comp World unit :=
  λ w, match transports (proc w) !! owner with
       | Some _ => log (EvDeregMr owner chunk) w
       | None => (Undef, w)
       end.

(** [delete p] for an allocator: every chunk it holds is deregistered, then
    the object is gone.  [delete nullptr] does nothing. *)
Definition delete_HugeAllocator (p : N) : Comp World unit :=
  if p =? nullptr then mret tt else
  λ w, match allocators (proc w) !! p with
       | None => (Undef, w)
       | Some a =>
           (for_each (dereg_mr (mr_owner a)) (chunks a) ;;
            modify (with_proc (λ pr, add_event (EvDeleteHugeAlloc p)
                                       (set_allocators (delete p (allocators pr)) pr)))) w
       end.

(** [delete p] for a transport. *)
Definition delete_Transport (p : N) : Comp World unit :=
  if p =? nullptr then mret tt else
  λ w, match transports (proc w) !! p with
       | None => (Undef, w)
       | Some _ =>
           (Ret tt, with_proc (λ pr, add_event (EvDeleteTransport p)
                                       (set_transports (delete p (transports pr)) pr)) w)
       end.

(** [delete p] for a session. *)
Definition delete_Session (p : N) : Comp World unit :=
  if p =? nullptr then mret tt else
  λ w, match sessions (proc w) !! p with
       | None => (Undef, w)
       | Some _ =>
           (Ret tt, with_proc (λ pr, add_event (EvDeleteSession p)
                                       (set_sessions (delete p (sessions pr)) pr)) w)
       end.

(** [t->init_hugepage_structures(a)]: the transport's own code, run on the two
    objects the call reaches; both are written back whatever the outcome. *)
Definition Transport_init_hugepage_structures (t a : N) : Comp World unit :=
  λ w, match transports (proc w) !! t, allocators (proc w) !! a with
       | Some tr, Some al =>
           let '(o, (tr', cs)) := init_hugepage_structures tr al in
           let al' := mkHugeAllocator (initial_size al) (alloc_numa_node al)
                                      (mr_owner al) cs in
           (o, with_proc (λ pr, set_allocators (<[a := al']> (allocators pr))
                                  (set_transports (<[t := tr']> (transports pr)) pr)) w)
       | _, _ => (Undef, w)
       end.

(** [nx->app_tid_exists(tid)] *)
Definition nexus_app_tid_exists (nx tid : N) : Comp World bool :=
  n ← deref_nexus nx; mret (Nexus_app_tid_exists n tid).

(** [nx->register_hook(&sm_hook)] *)
Definition nexus_register_hook (nx : N) : Comp World unit :=
  n ← deref_nexus nx;
  hook ← member sm_hook;
  modify (with_proc (λ pr, set_nexuses
            (<[nx := Nexus_register_hook n (hook_app_tid hook)]> (nexuses pr)) pr)).

(** [strcmp]: only its sign matters; it is 0 exactly on equal strings. *)
Definition strcmp (a b : string) : Z :=
  match String.compare a b with
  | Eq => 0%Z
  | Lt => (-1)%Z
  | Gt => 1%Z
  end.

Definition set_hook_app_tid (tid : N) (h : SessionMgmtHook) : SessionMgmtHook :=
  mkHook tid (session_mgmt_ev_counter h) (session_mgmt_mutex h) (session_mgmt_pkt_list h).

Definition set_hook_counter (c : N) (h : SessionMgmtHook) : SessionMgmtHook :=
  mkHook (hook_app_tid h) c (session_mgmt_mutex h) (session_mgmt_pkt_list h).

Definition set_hook_mutex (b : bool) (h : SessionMgmtHook) : SessionMgmtHook :=
  mkHook (hook_app_tid h) (session_mgmt_ev_counter h) b (session_mgmt_pkt_list h).

Definition set_hook_list (l : list SessionMgmtPkt.t) (h : SessionMgmtHook) : SessionMgmtHook :=
  mkHook (hook_app_tid h) (session_mgmt_ev_counter h) (session_mgmt_mutex h) l.

(** An assignment to a member of [sm_hook]. *)
Definition update_hook (f : SessionMgmtHook → SessionMgmtHook) : Comp World unit :=
  modify (with_this (λ r, set_sm_hook (f (sm_hook r)) r)).

(** ** [Rpc<Transport_>::Rpc] *)

(** The member initialisers.  [transport] and [huge_alloc] are assigned in the
    body; the hook and the session table start empty. *)
Definition Rpc_init (nx ctx tid handler port numa : N) : Rpc :=
  mkRpc nx ctx tid handler port numa nullptr nullptr (mkHook 0 0 false []) []
        SlowRand_new.

(** The body of the constructor. *)
Definition Rpc_body : Comp World unit :=
  u ← getuid;
  if negb (u =? 0)
  then throw (runtime_error "eRPC Rpc: You need to be root to use eRPC") else
  nx ← member nexus;
  if nx =? nullptr
  then throw (invalid_argument "eRPC Rpc: Invalid nexus") else
  tid ← member app_tid;
  bad_tid ← (if tid =? kInvalidAppTid then mret true
             else nexus_app_tid_exists nx tid);
  if bad_tid : bool
  then throw (invalid_argument "eRPC Rpc: Invalid app_tid") else
  port ← member phy_port;
  if kMaxPhyPorts <=? port
  then throw (invalid_argument "eRPC Rpc: Invalid physical port") else
  numa ← member numa_node;
  if kMaxNumaNodes <=? numa
  then throw (invalid_argument "eRPC Rpc: Invalid NUMA node") else
  t ← new_Transport tid port;
  modify (with_this (set_transport t));;
  a ← new_HugeAllocator kInitialHugeAllocSize numa t;
  modify (with_this (set_huge_alloc a));;
  try_catch_runtime_error
    (t ← member transport;
     a ← member huge_alloc;
     Transport_init_hugepage_structures t a)
    (λ what,
       a ← member huge_alloc;
       delete_HugeAllocator a;;
       throw (runtime_error what));;
  update_hook (set_hook_app_tid tid);;
  nexus_register_hook nx.

(** Constructing an endpoint in a process: the new object when the body
    returns, and in every case the process the constructor leaves behind. *)
Definition Rpc_ctor (nx ctx tid handler port numa : N) : Comp Proc Rpc :=
  λ pr, let '(o, w) := Rpc_body (mkWorld (Rpc_init nx ctx tid handler port numa) pr) in
        (match o with
         | Ret _ => Ret (this w)
         | Throw e => Throw e
         | Abort => Abort
         | Undef => Undef
         end, proc w).

(** ** [Rpc<Transport_>::~Rpc] *)

Definition Rpc_dtor : Comp World unit :=
  a ← member huge_alloc;
  delete_HugeAllocator a;;
  t ← member transport;
  delete_Transport t;;
  v ← member session_vec;
  for_each (λ session : N,
              if negb (session =? nullptr)
              then mret tt (* _unused(session) *)
              else mret tt) v.

(** ** [generate_start_seq] *)

(** [slow_rand.next_u64()] *)
Definition slow_rand_next_u64 : Comp World N :=
  λ w, let '(x, g) := next_u64 (slow_rand (this w)) in
       (Ret x, with_this (set_slow_rand g) w).

Definition generate_start_seq : Comp World N :=
  rand ← slow_rand_next_u64;
  mret (N.land rand kStartSeqMask).

(** ** The session-pointer predicates *)

Definition is_session_ptr_client (session : N) : Comp World bool :=
  if session =? nullptr then mret false else
  v ← member session_vec;
  match std_find v session with
  | None => mret false
  | Some _ =>
      s ← deref_session session;
      if negb (bool_decide (Session.role s = kClient)) then mret false
      else mret true
  end.

Definition is_session_ptr_server (session : N) : Comp World bool :=
  if session =? nullptr then mret false else
  v ← member session_vec;
  match std_find v session with
  | None => mret false
  | Some _ =>
      s ← deref_session session;
      if negb (bool_decide (Session.role s = kServer)) then mret false
      else mret true
  end.

(** Modelled from the spec: [is_in_flight] is defined outside this translation
    unit; it reports the session's in-flight flag. *)
Definition is_in_flight (session : N) : Comp World bool :=
  s ← deref_session session;
  mret (Session.in_flight s).

(** ** [bury_session] *)

(** [session_vec.at(i) = x]: [at] checks the index against the size. *)
Definition session_vec_at_assign (i x : N) : Comp World unit :=
  v ← member session_vec;
  if (N.to_nat i <? length v)%nat
  then modify (with_this (set_session_vec (<[N.to_nat i := x]> v)))
  else throw (out_of_range "vector::_M_range_check").

Definition bury_session (session : N) : Comp World unit :=
  assert (negb (session =? nullptr));;
  s ← deref_session session;
  num ← match Session.role s with
        | kClient =>
            c ← is_session_ptr_client session;
            assert c;;
            f ← is_in_flight session;
            assert (negb f);;
            mret (SessionMetadata.session_num (Session.client s))
        | kServer =>
            c ← is_session_ptr_server session;
            assert c;;
            mret (SessionMetadata.session_num (Session.server s))
        end;
  session_vec_at_assign num nullptr;;
  delete_Session session.

(** ** [handle_session_management] *)

(** A call of one of the four handlers with [sm_pkt]. *)
Definition call_handler (h : SessionMgmtPkt.t → SessionTable → SessionTable)
    (sm_pkt : SessionMgmtPkt.t) : Comp World unit :=
  log (EvHandler (SessionMgmtPkt.pkt_type sm_pkt) sm_pkt);;
  modify (λ w,
    let tb := h sm_pkt (mkSessionTable (session_vec (this w)) (sessions (proc w))) in
    with_proc (set_sessions (tbl_sessions tb))
              (with_this (set_session_vec (tbl_vec tb)) w)).

(** The test inside the two [assert]s of the loop: does the identity block
    [who] name this endpoint? *)
Definition names_this_rpc (who : SessionMetadata.t) : Comp World bool :=
  nx ← member nexus;
  n ← deref_nexus nx;
  tid ← member app_tid;
  mret ((strcmp (SessionMetadata.hostname who) (nexus_hostname n) =? 0)%Z
        && (SessionMetadata.app_tid who =? tid)).

(** The body of the loop over the pending packets.  The [default] label of the
    [switch] has no counterpart: the packet type has the four values. *)
Definition handle_sm_pkt (sm_pkt : SessionMgmtPkt.t) : Comp World unit :=
  (if session_mgmt_is_pkt_type_req (SessionMgmtPkt.pkt_type sm_pkt)
   then b ← names_this_rpc (SessionMgmtPkt.client sm_pkt); assert (negb b)
   else b ← names_this_rpc (SessionMgmtPkt.server sm_pkt); assert (negb b));;
  match SessionMgmtPkt.pkt_type sm_pkt with
  | kConnectReq => call_handler handle_session_connect_req sm_pkt
  | kConnectResp => call_handler handle_session_connect_resp sm_pkt
  | kDisconnectReq => call_handler handle_session_disconnect_req sm_pkt
  | kDisconnectResp => call_handler handle_session_disconnect_resp sm_pkt
  end;;
  log (EvFree sm_pkt).

Definition handle_session_management : Comp World unit :=
  hook ← member sm_hook;
  assert (0 <? session_mgmt_ev_counter hook);;
  update_hook (set_hook_mutex true);;
  hook ← member sm_hook;
  for_each handle_sm_pkt (session_mgmt_pkt_list hook);;
  update_hook (set_hook_list []);;
  update_hook (set_hook_counter 0);;
  update_hook (set_hook_mutex false).

(** ** The datapath stubs *)

Definition send_request (session buffer : N) : Comp World unit :=
  mret tt. (* _unused(session); _unused(buffer); *)

Definition send_response (session buffer : N) : Comp World unit :=
  mret tt. (* _unused(session); _unused(buffer); *)

(** ** [get_name] *)

(** [std::to_string] of the [uint8_t] id, promoted to [int], writes it in
    decimal; [pretty] is that writing. *)
Definition get_name : Comp World string :=
  nx ← member nexus;
  n ← deref_nexus nx;
  tid ← member app_tid;
  mret ("[" +:+ nexus_hostname n +:+ ", " +:+ pretty tid +:+ "]").

End Endpoint.

Arguments Proc : clear implicits.
Arguments Rpc : clear implicits.
Arguments World : clear implicits.

(** ** Statement vocabulary *)

(** The identity block a packet reports its author in: the client block of a
    request, the server block of a response (the two branches of the check at
    the head of the loop of [handle_session_management]). *)
Definition requester (sm_pkt : SessionMgmtPkt.t) : SessionMetadata.t :=
  if session_mgmt_is_pkt_type_req (SessionMgmtPkt.pkt_type sm_pkt)
  then SessionMgmtPkt.client sm_pkt
  else SessionMgmtPkt.server sm_pkt.

(** The handler the [switch] selects for a packet. *)
Definition dispatch `{SmHandlers} (sm_pkt : SessionMgmtPkt.t)
  : SessionTable → SessionTable :=
  match SessionMgmtPkt.pkt_type sm_pkt with
  | kConnectReq => handle_session_connect_req sm_pkt
  | kConnectResp => handle_session_connect_resp sm_pkt
  | kDisconnectReq => handle_session_disconnect_req sm_pkt
  | kDisconnectResp => handle_session_disconnect_resp sm_pkt
  end.

(** Recording several events at once. *)
Definition add_events {T} (es : list Event) (p : Proc T) : Proc T :=
  mkProc (uid p) (nexuses p) (transports p) (allocators p) (sessions p)
         (trace p ++ es).

(** What the process records for a batch of packets that are all handled. *)
Definition drain_events (l : list SessionMgmtPkt.t) : list Event :=
  flat_map (λ p, [EvHandler (SessionMgmtPkt.pkt_type p) p; EvFree p]) l.

(** The session table after the handlers of a batch ran, first packet first. *)
Definition drain_table `{SmHandlers} (l : list SessionMgmtPkt.t)
    (tb : SessionTable) : SessionTable :=
  fold_left (λ tb p, dispatch p tb) l tb.

(** The endpoint and the process after one packet was handled and freed, and
    after a batch was, first packet first. *)
Definition after_pkt `{SmHandlers} {T R} (p : SessionMgmtPkt.t) (w : World T R)
  : World T R :=
  let tb := dispatch p (mkSessionTable (session_vec (this w)) (sessions (proc w))) in
  mkWorld (set_session_vec (tbl_vec tb) (this w))
          (add_events [EvHandler (SessionMgmtPkt.pkt_type p) p; EvFree p]
                      (set_sessions (tbl_sessions tb) (proc w))).

Definition after_pkts `{SmHandlers} {T R} (l : list SessionMgmtPkt.t)
    (w : World T R) : World T R :=
  fold_left (λ w p, after_pkt p w) l w.

(** The session table of an endpoint: the slots and the objects they own. *)
Definition table {T R} (w : World T R) : SessionTable :=
  mkSessionTable (session_vec (this w)) (sessions (proc w)).

(** The session number [bury_session] reads: the one in the identity block of
    the session's role. *)
Definition own_session_num (s : Session.t) : N :=
  match Session.role s with
  | kClient => SessionMetadata.session_num (Session.client s)
  | kServer => SessionMetadata.session_num (Session.server s)
  end.

(** The endpoint and the process after [bury_session] cleared slot [i] and
    deleted [session]. *)
Definition buried {T R} (session : N) (i : nat) (w : World T R) : World T R :=
  with_proc (λ pr, add_event (EvDeleteSession session)
                     (set_sessions (delete session (sessions pr)) pr))
            (with_this (set_session_vec (<[i := nullptr]> (session_vec (this w)))) w).


(** The endpoint with the mutex of its hook taken. *)
Definition locked {T R} (w : World T R) : World T R :=
  with_this (λ r, set_sm_hook (set_hook_mutex true (sm_hook r)) r) w.

(** ** Stand-ins for the collaborators, to run the endpoint on *)

Module StandIn.

Definition constants : Constants :=
  {| kInvalidAppTid := 255;
     kMaxPhyPorts := 4;
     kMaxNumaNodes := 8;
     kInitialHugeAllocSize := 134217728;
     kStartSeqMask := 281474976710655 |}.

(** A transport whose state is the number of structures it has carved.  Its
    second phase takes one more chunk from the allocator. *)
Definition good_transport : TransportIface N :=
  {| Transport_new := λ _ _, 0;
     init_hugepage_structures := λ t a, (Ret tt, (t + 1, chunks a ++ [2]));
     HugeAllocator_reserve := λ _ _, [1] |}.

(** The same transport on a machine where the second phase runs out of
    memory after it has taken its chunk. *)
Definition failing_transport : TransportIface N :=
  {| Transport_new := λ _ _, 0;
     init_hugepage_structures := λ t a,
       (Throw (runtime_error "Failed to allocate ring"), (t, chunks a ++ [2]));
     HugeAllocator_reserve := λ _ _, [1] |}.

(** A transport that finds a queue depth it cannot use and says so with a
    [std::invalid_argument] after it has taken its chunk. *)
Definition misconfigured_transport : TransportIface N :=
  {| Transport_new := λ _ _, 0;
     init_hugepage_structures := λ t a,
       (Throw (invalid_argument "Invalid queue depth"), (t, chunks a ++ [2]));
     HugeAllocator_reserve := λ _ _, [1] |}.

(** A linear congruential generator on 64 bits. *)
Definition lcg : RandIface N :=
  {| SlowRand_new := 42;
     next_u64 := λ g,
       let g' := (g * 6364136223846793005 + 1442695040888963407) mod 2 ^ 64 in
       (g', g') |}.

(** Handlers for a table with one slot per connect request: a connect request
    appends an empty slot, a disconnect response clears slot 0, the other two
    leave the table as it is. *)
Definition handlers : SmHandlers :=
  {| handle_session_connect_req := λ _ tb,
       mkSessionTable (tbl_vec tb ++ [nullptr]) (tbl_sessions tb);
     handle_session_connect_resp := λ _ tb, tb;
     handle_session_disconnect_req := λ _ tb, tb;
     handle_session_disconnect_resp := λ _ tb,
       mkSessionTable (<[0%nat := nullptr]> (tbl_vec tb)) (tbl_sessions tb) |}.

Definition md (h : string) (tid num : N) : SessionMetadata.t :=
  SessionMetadata.mk h tid num.

(** A process run by root with one Nexus, at address 16, on host "akalia". *)
Definition root_proc : Proc N :=
  mkProc 0 {[ 16 := mkNexus "akalia" ∅ ]} ∅ ∅ ∅ [].

(** The same process run by an ordinary user. *)
Definition user_proc : Proc N :=
  mkProc 1000 {[ 16 := mkNexus "akalia" ∅ ]} ∅ ∅ ∅ [].

(** A client session to ("other-host", 7) in slot 1, at address 32. *)
Definition client_session (in_flight : bool) : Session.t :=
  Session.mk kClient (md "akalia" 3 1) (md "other-host" 7 0) in_flight.

(** An endpoint with application-thread id 3 that has been constructed on
    [root_proc] with [good_transport], and its process. *)
Definition live_rpc (v : list N) (q : list SessionMgmtPkt.t) (cnt : N) : Rpc N :=
  mkRpc 16 0 3 0 0 0 1 1 (mkHook 3 cnt false q) v 42.

Definition live_proc (ss : gmap N Session.t) : Proc N :=
  mkProc 0 {[ 16 := mkNexus "akalia" {[ 3 ]} ]} {[ 1 := 1 ]}
         {[ 1 := mkHugeAllocator 134217728 0 1 [1; 2] ]} ss [].

(** A server session for ("other-host", 7) in slot 0, at address 48. *)
Definition server_session (in_flight : bool) : Session.t :=
  Session.mk kServer (md "other-host" 7 0) (md "akalia" 3 0) in_flight.

(** Packets: a connect request from ("other-host", 7), a disconnect response
    of that host's endpoint, and a connect request that reports this
    endpoint, ("akalia", 3), as its author. *)
Definition connect_req : SessionMgmtPkt.t :=
  SessionMgmtPkt.mk kConnectReq (md "other-host" 7 0) (md "akalia" 3 0).

Definition disconnect_resp : SessionMgmtPkt.t :=
  SessionMgmtPkt.mk kDisconnectResp (md "akalia" 3 0) (md "other-host" 7 0).

Definition spoofed_req : SessionMgmtPkt.t :=
  SessionMgmtPkt.mk kConnectReq (md "akalia" 3 0) (md "other-host" 7 0).

End StandIn.

(** * Properties *)

(** Unfolding the plumbing of computations. *)
Ltac comp_unfold :=
  unfold assert, member, gets, modify, abort, throw, undef,
         mbind, Comp_mbind, comp_bind, mret, Comp_mret, comp_ret in *.

Ltac comp_simpl := comp_unfold; simpl in *.

(** Reading a member of a state that was written field by field. *)
Ltac world_simpl :=
  unfold with_proc, with_this, set_nexuses, set_transports, set_allocators,
         set_sessions, add_event, add_events, set_transport, set_huge_alloc,
         set_sm_hook, set_session_vec, set_slow_rand in *;
  cbn [this proc uid nexuses transports allocators sessions trace
       nexus context app_tid session_mgmt_handler phy_port numa_node
       transport huge_alloc sm_hook session_vec slow_rand fst snd] in *.

Lemma std_find_None (v : list N) (x : N) : std_find v x = None ↔ x ∉ v.
Proof.
  induction v as [|y v IH]; simpl.
  - split; [intros _; apply not_elem_of_nil | reflexivity].
  - destruct (N.eqb_spec y x) as [->|Hne].
    + split; [discriminate | intros Hn; exfalso; apply Hn; left].
    + rewrite not_elem_of_cons, <- IH.
      destruct (std_find v x); simpl.
      * split; [discriminate | intros [_ ?]; discriminate].
      * split; [intros _; split; [congruence | reflexivity] | reflexivity].
Qed.

Lemma std_find_Some (v : list N) (x : N) : x ∈ v → ∃ i, std_find v x = Some i.
Proof.
  intros Hin. destruct (std_find v x) as [i|] eqn:E; [eauto|].
  apply std_find_None in E. contradiction.
Qed.

Lemma strcmp_eq0 (a b : string) : (strcmp a b =? 0)%Z = true ↔ a = b.
Proof.
  unfold strcmp. split.
  - intros Hc. apply String.compare_eq_iff.
    destruct (String.compare a b); [reflexivity | discriminate | discriminate].
  - intros ->. pose proof (String.compare_antisym b b) as Ha.
    destruct (String.compare b b); [reflexivity | discriminate | discriminate].
Qed.

Section Properties.

Context {K : Constants} {T R : Type} {TI : TransportIface T} {RI : RandIface R}.
Context {SH : SmHandlers}.

Implicit Types (w : World T R) (pr : Proc T).

(** ** Construction *)

Lemma Rpc_ctor_not_root (nx ctx tid handler port numa : N) pr :
  uid pr ≠ 0 →
  Rpc_ctor nx ctx tid handler port numa pr
  = (Throw (runtime_error "eRPC Rpc: You need to be root to use eRPC"), pr).
Proof.
  intros Hu. apply N.eqb_neq in Hu.
  unfold Rpc_ctor, Rpc_body, mbind, Comp_mbind, comp_bind, getuid, gets; simpl.
  rewrite Hu; simpl. reflexivity.
Qed.

(** C2.  When [getuid()] is not 0 the constructor throws the
    [std::runtime_error] "You need to be root" (the spec's PermissionError),
    and the process is exactly as before: no transport and no allocator was
    created, nothing was recorded. *)
Theorem ctor_without_root (nx ctx tid handler port numa : N) pr :
  uid pr ≠ 0 →
  Rpc_ctor nx ctx tid handler port numa pr
  = (Throw (runtime_error "eRPC Rpc: You need to be root to use eRPC"), pr).
Proof. apply Rpc_ctor_not_root. Qed.

(** ** Sequence numbers *)

(** C9.  [generate_start_seq] draws one value from [slow_rand], which moves
    on, and returns that value masked with [kStartSeqMask]; the result has no
    bit outside the mask (result AND NOT mask is 0) and is at most the
    mask. *)
Theorem generate_start_seq_masked w :
  let rand := fst (next_u64 (slow_rand (this w))) in
  generate_start_seq w
  = (Ret (N.land rand kStartSeqMask),
     with_this (set_slow_rand (snd (next_u64 (slow_rand (this w))))) w)
  ∧ N.ldiff (N.land rand kStartSeqMask) kStartSeqMask = 0
  ∧ N.land rand kStartSeqMask ≤ kStartSeqMask.
Proof.
  intros rand. subst rand.
  unfold generate_start_seq, slow_rand_next_u64, mbind, Comp_mbind, comp_bind.
  destruct (next_u64 (slow_rand (this w))) as [x g]; simpl.
  split; [reflexivity|]. split.
  - apply N.bits_inj_iff. intros i.
    rewrite N.ldiff_spec, N.land_spec, N.bits_0.
    destruct (N.testbit x i), (N.testbit kStartSeqMask i); reflexivity.
  - apply N.ldiff_le. apply N.bits_inj_iff. intros i.
    rewrite N.ldiff_spec, N.land_spec, N.bits_0.
    destruct (N.testbit x i), (N.testbit kStartSeqMask i); reflexivity.
Qed.

(** ** The datapath stubs *)

(** C10.  [send_request] and [send_response] return and leave the endpoint
    and the process as they were, for every session and buffer pointer. *)
Theorem send_is_noop (session buffer : N) w :
  send_request session buffer w = (Ret tt, w)
  ∧ send_response session buffer w = (Ret tt, w).
Proof. split; reflexivity. Qed.

(** ** The session table *)

Lemma is_session_ptr_client_null w :
  is_session_ptr_client nullptr w = (Ret false, w).
Proof. reflexivity. Qed.

Lemma is_session_ptr_server_null w :
  is_session_ptr_server nullptr w = (Ret false, w).
Proof. reflexivity. Qed.

Lemma is_session_ptr_client_absent (session : N) w :
  session ∉ session_vec (this w) →
  is_session_ptr_client session w = (Ret false, w).
Proof.
  intros Hn. apply std_find_None in Hn. unfold is_session_ptr_client.
  destruct (session =? nullptr); [reflexivity|].
  comp_simpl. rewrite Hn. reflexivity.
Qed.

Lemma is_session_ptr_server_absent (session : N) w :
  session ∉ session_vec (this w) →
  is_session_ptr_server session w = (Ret false, w).
Proof.
  intros Hn. apply std_find_None in Hn. unfold is_session_ptr_server.
  destruct (session =? nullptr); [reflexivity|].
  comp_simpl. rewrite Hn. reflexivity.
Qed.

Lemma is_session_ptr_client_live (session : N) (s : Session.t) w :
  session ≠ nullptr →
  session ∈ session_vec (this w) →
  sessions (proc w) !! session = Some s →
  is_session_ptr_client session w
  = (Ret (bool_decide (Session.role s = kClient)), w).
Proof.
  intros Hnz Hin Hs. apply N.eqb_neq in Hnz.
  destruct (std_find_Some _ _ Hin) as [i Hi].
  unfold is_session_ptr_client, deref_session. rewrite Hnz.
  comp_simpl. rewrite Hi, Hs.
  destruct (bool_decide (Session.role s = kClient)); reflexivity.
Qed.

Lemma is_session_ptr_server_live (session : N) (s : Session.t) w :
  session ≠ nullptr →
  session ∈ session_vec (this w) →
  sessions (proc w) !! session = Some s →
  is_session_ptr_server session w
  = (Ret (bool_decide (Session.role s = kServer)), w).
Proof.
  intros Hnz Hin Hs. apply N.eqb_neq in Hnz.
  destruct (std_find_Some _ _ Hin) as [i Hi].
  unfold is_session_ptr_server, deref_session. rewrite Hnz.
  comp_simpl. rewrite Hi, Hs.
  destruct (bool_decide (Session.role s = kServer)); reflexivity.
Qed.

(** C8.  [is_session_ptr_client] (and likewise [is_session_ptr_server])
    returns false for [nullptr], false for a pointer that is in no slot of
    [session_vec], false for a session of the table whose role is not Client
    (Server), and true for a session of the table whose role is Client
    (Server).  No call changes anything. *)
Theorem is_session_ptr_spec (session : N) w :
  (session = nullptr →
     is_session_ptr_client session w = (Ret false, w)
     ∧ is_session_ptr_server session w = (Ret false, w))
  ∧ (session ∉ session_vec (this w) →
     is_session_ptr_client session w = (Ret false, w)
     ∧ is_session_ptr_server session w = (Ret false, w))
  ∧ (∀ s, session ≠ nullptr →
          session ∈ session_vec (this w) →
          sessions (proc w) !! session = Some s →
          (Session.role s ≠ kClient →
             is_session_ptr_client session w = (Ret false, w))
          ∧ (Session.role s ≠ kServer →
             is_session_ptr_server session w = (Ret false, w))
          ∧ (Session.role s = kClient →
             is_session_ptr_client session w = (Ret true, w))
          ∧ (Session.role s = kServer →
             is_session_ptr_server session w = (Ret true, w))).
Proof.
  split; [|split].
  - intros ->. split; reflexivity.
  - intros Hn. split.
    + by apply is_session_ptr_client_absent.
    + by apply is_session_ptr_server_absent.
  - intros s Hnz Hin Hs.
    rewrite (is_session_ptr_client_live _ _ _ Hnz Hin Hs).
    rewrite (is_session_ptr_server_live _ _ _ Hnz Hin Hs).
    repeat split; intros Hr.
    + by rewrite bool_decide_eq_false_2.
    + by rewrite bool_decide_eq_false_2.
    + by rewrite bool_decide_eq_true_2.
    + by rewrite bool_decide_eq_true_2.
Qed.

(** ** Burial *)

Lemma is_in_flight_live (session : N) (s : Session.t) w :
  sessions (proc w) !! session = Some s →
  is_in_flight session w = (Ret (Session.in_flight s), w).
Proof.
  intros Hs. unfold is_in_flight, deref_session. comp_simpl.
  rewrite Hs. reflexivity.
Qed.

(** C6.  For a live client-role session: when it is in flight,
    [bury_session] stops at an [assert]; when it is not in flight and sits in
    the slot its [client.session_num] indexes (and in no other: a session is
    owned by exactly one slot, indexed by its number), [bury_session] returns,
    that slot holds [nullptr], the session object is deleted, and
    [is_session_ptr_client] on the same pointer then returns false. *)
Theorem bury_session_client (session : N) (s : Session.t) w :
  session ≠ nullptr →
  sessions (proc w) !! session = Some s →
  Session.role s = kClient →
  (Session.in_flight s = true → fst (bury_session session w) = Abort)
  ∧ (Session.in_flight s = false →
     (∀ i : nat, session_vec (this w) !! i = Some session
                 ↔ i = N.to_nat (SessionMetadata.session_num (Session.client s))) →
     ∃ w',
       bury_session session w = (Ret tt, w')
       ∧ session_vec (this w')
           !! N.to_nat (SessionMetadata.session_num (Session.client s))
         = Some nullptr
       ∧ sessions (proc w') = delete session (sessions (proc w))
       ∧ is_session_ptr_client session w' = (Ret false, w')).
Proof.
  intros Hnz Hs Hrole. pose proof Hnz as Hnzb. apply N.eqb_neq in Hnzb.
  split.
  - intros Hfl. unfold bury_session.
    unfold mbind at 1, Comp_mbind, comp_bind at 1. unfold assert at 1.
    rewrite Hnzb; simpl.
    unfold mbind at 1, comp_bind at 1. unfold deref_session at 1.
    rewrite Hs, Hrole.
    destruct (decide (session ∈ session_vec (this w))) as [Hin|Hout].
    + unfold mbind, comp_bind.
      rewrite (is_session_ptr_client_live _ _ _ Hnz Hin Hs), Hrole; simpl.
      rewrite (is_in_flight_live _ _ _ Hs), Hfl; simpl. reflexivity.
    + unfold mbind, comp_bind.
      rewrite (is_session_ptr_client_absent _ _ Hout); simpl. reflexivity.
  - intros Hfl Hslot.
    set (n := N.to_nat (SessionMetadata.session_num (Session.client s))) in *.
    assert (Hn : session_vec (this w) !! n = Some session) by (by apply Hslot).
    assert (Hin : session ∈ session_vec (this w))
      by (apply list_elem_of_lookup; eauto).
    assert (Hlt : (n <? length (session_vec (this w)))%nat = true)
      by (apply Nat.ltb_lt; eapply lookup_lt_Some; eauto).
    set (v' := <[n := nullptr]> (session_vec (this w))).
    assert (Hout : session ∉ v').
    { intros Hin'. apply list_elem_of_lookup in Hin' as [j Hj].
      destruct (decide (j = n)) as [->|Hne].
      - unfold v' in Hj. rewrite list_lookup_insert_eq in Hj.
        + congruence.
        + by apply Nat.ltb_lt.
      - unfold v' in Hj. rewrite list_lookup_insert_ne in Hj by congruence.
        apply Hslot in Hj. contradiction. }
    exists (with_proc
              (λ pr, add_event (EvDeleteSession session)
                       (set_sessions (delete session (sessions pr)) pr))
              (with_this (set_session_vec v') w)).
    split; [|split; [|split]].
    + unfold bury_session.
      unfold mbind at 1, Comp_mbind, comp_bind at 1. unfold assert at 1.
      rewrite Hnzb; simpl.
      unfold mbind at 1, comp_bind at 1. unfold deref_session at 1.
      rewrite Hs, Hrole.
      unfold mbind, comp_bind.
      rewrite (is_session_ptr_client_live _ _ _ Hnz Hin Hs), Hrole; simpl.
      rewrite (is_in_flight_live _ _ _ Hs), Hfl; simpl.
      unfold session_vec_at_assign, delete_Session. comp_simpl.
      fold n. rewrite Hlt, Hnzb; simpl. rewrite Hs. reflexivity.
    + simpl. unfold v'. apply list_lookup_insert_eq. by apply Nat.ltb_lt.
    + reflexivity.
    + by apply is_session_ptr_client_absent.
Qed.

(** ** Destruction *)

Lemma with_proc_add_events_nil w : with_proc (add_events []) w = w.
Proof.
  destruct w as [r [u nx tr al ss tc]]. unfold with_proc, add_events; simpl.
  by rewrite app_nil_r.
Qed.

Lemma with_proc_add_events_cons (e : Event) (es : list Event) w :
  with_proc (add_events es) (with_proc (add_event e) w)
  = with_proc (add_events (e :: es)) w.
Proof.
  unfold with_proc, add_events, add_event; simpl.
  by rewrite <- app_assoc.
Qed.

(** Deregistering the chunks of an allocator whose transport is alive records
    one call per chunk, in the order of the chunks. *)
Lemma dereg_all (t : N) (tr : T) (cs : list N) w :
  transports (proc w) !! t = Some tr →
  for_each (dereg_mr t) cs w
  = (Ret tt, with_proc (add_events (map (EvDeregMr t) cs)) w).
Proof.
  revert w. induction cs as [|c cs IH]; intros w Ht; simpl.
  - by rewrite with_proc_add_events_nil.
  - unfold mbind, Comp_mbind, comp_bind. unfold dereg_mr at 1. rewrite Ht.
    unfold log, modify. rewrite IH by exact Ht.
    by rewrite with_proc_add_events_cons.
Qed.

Lemma delete_HugeAllocator_live (a : N) (al : HugeAllocator) (tr : T) w :
  a ≠ nullptr →
  allocators (proc w) !! a = Some al →
  transports (proc w) !! mr_owner al = Some tr →
  delete_HugeAllocator a w
  = (Ret tt,
     with_proc (λ pr, add_event (EvDeleteHugeAlloc a)
                        (set_allocators (delete a (allocators pr)) pr))
               (with_proc (add_events (map (EvDeregMr (mr_owner al)) (chunks al))) w)).
Proof.
  intros Hnz Ha Ht. apply N.eqb_neq in Hnz.
  unfold delete_HugeAllocator. rewrite Hnz, Ha.
  unfold mbind, Comp_mbind, comp_bind. rewrite (dereg_all _ _ _ _ Ht).
  reflexivity.
Qed.

(** The loop over [session_vec] in the destructor does nothing. *)
Lemma dtor_session_loop (v : list N) w :
  for_each (λ session : N,
              if negb (session =? nullptr) then mret tt else mret tt) v w
  = (Ret tt, w).
Proof.
  induction v as [|x v IH]; simpl; [reflexivity|].
  unfold mbind, Comp_mbind, comp_bind.
  destruct (negb (x =? nullptr)); simpl; apply IH.
Qed.

(** What the destructor does to an endpoint that was constructed: the chunks
    of the allocator are deregistered with the transport still alive, the
    allocator is deleted, then the transport; the sessions are as before. *)
Lemma Rpc_dtor_effect (al : HugeAllocator) (tr : T) w :
  huge_alloc (this w) ≠ nullptr →
  transport (this w) ≠ nullptr →
  allocators (proc w) !! huge_alloc (this w) = Some al →
  mr_owner al = transport (this w) →
  transports (proc w) !! transport (this w) = Some tr →
  ∃ w',
    Rpc_dtor w = (Ret tt, w')
    ∧ this w' = this w
    ∧ allocators (proc w') = delete (huge_alloc (this w)) (allocators (proc w))
    ∧ transports (proc w') = delete (transport (this w)) (transports (proc w))
    ∧ trace (proc w')
      = trace (proc w)
        ++ map (EvDeregMr (transport (this w))) (chunks al)
        ++ [EvDeleteHugeAlloc (huge_alloc (this w));
            EvDeleteTransport (transport (this w))]
    ∧ sessions (proc w') = sessions (proc w)
    ∧ nexuses (proc w') = nexuses (proc w).
Proof.
  intros Ha0 Ht0 Ha Hown Ht. pose proof Ht0 as Ht0b. apply N.eqb_neq in Ht0b.
  eexists. split.
  - unfold Rpc_dtor. unfold mbind, Comp_mbind, comp_bind, member, gets.
    rewrite (delete_HugeAllocator_live _ al tr w Ha0 Ha) by (by rewrite Hown).
    unfold delete_Transport. world_simpl. rewrite Ht0b. world_simpl. rewrite Ht.
    rewrite dtor_session_loop. reflexivity.
  - world_simpl. rewrite Hown. repeat split; try reflexivity.
    by rewrite <- !app_assoc.
Qed.

(** ** Construction with valid arguments *)

Lemma fresh_addr_spec {X} (m : gmap N X) :
  fresh_addr m ≠ nullptr ∧ m !! fresh_addr m = None.
Proof.
  unfold fresh_addr.
  pose proof (is_fresh ({[nullptr]} ∪ dom m)) as Hf. split.
  - intros E. apply Hf. rewrite E. set_solver.
  - apply not_elem_of_dom. set_solver.
Qed.

(** The process an endpoint's constructor leaves when the arguments pass
    every check, by the outcome of the transport's second phase. *)
Lemma Rpc_ctor_checked (nx ctx tid handler port numa : N) (n : Nexus) pr :
  uid pr = 0 →
  nx ≠ nullptr →
  nexuses pr !! nx = Some n →
  tid ≠ kInvalidAppTid →
  tid ∉ reg_hooks n →
  port < kMaxPhyPorts →
  numa < kMaxNumaNodes →
  let t := fresh_addr (transports pr) in
  let a := fresh_addr (allocators pr) in
  let al := mkHugeAllocator kInitialHugeAllocSize numa t
              (HugeAllocator_reserve kInitialHugeAllocSize numa) in
  let both tr' cs :=
    mkProc (uid pr) (nexuses pr) (<[t := tr']> (transports pr))
           (<[a := mkHugeAllocator kInitialHugeAllocSize numa t cs]> (allocators pr))
           (sessions pr) (trace pr ++ [EvNewTransport t; EvNewHugeAlloc a]) in
  Rpc_ctor nx ctx tid handler port numa pr
  = match init_hugepage_structures (Transport_new tid port) al with
    | (Ret _, (tr', cs)) =>
        (Ret (mkRpc nx ctx tid handler port numa t a (mkHook tid 0 false []) []
                    SlowRand_new),
         set_nexuses (<[nx := Nexus_register_hook n tid]> (nexuses pr)) (both tr' cs))
    | (Throw (runtime_error what), (tr', cs)) =>
        (Throw (runtime_error what),
         mkProc (uid pr) (nexuses pr) (<[t := tr']> (transports pr))
                (allocators pr) (sessions pr)
                (trace pr ++ [EvNewTransport t; EvNewHugeAlloc a]
                          ++ map (EvDeregMr t) cs ++ [EvDeleteHugeAlloc a]))
    | (Throw e, (tr', cs)) => (Throw e, both tr' cs)
    | (Abort, (tr', cs)) => (Abort, both tr' cs)
    | (Undef, (tr', cs)) => (Undef, both tr' cs)
    end.
Proof.
  intros Hu Hnx Hn Htid Hreg Hport Hnuma t a al both. subst both. cbv beta.
  destruct (fresh_addr_spec (transports pr)) as [Ht0 Htf].
  destruct (fresh_addr_spec (allocators pr)) as [Ha0 Haf].
  fold t in Ht0, Htf. fold a in Ha0, Haf.
  apply N.eqb_neq in Hnx, Htid. apply N.eqb_eq in Hu.
  apply N.leb_gt in Hport, Hnuma.
  assert (Hex : Nexus_app_tid_exists n tid = false)
    by (unfold Nexus_app_tid_exists; by apply bool_decide_eq_false_2).
  unfold Rpc_ctor, Rpc_body, Rpc_init, getuid, nexus_app_tid_exists,
    deref_nexus, new_Transport, new_HugeAllocator, try_catch_runtime_error,
    Transport_init_hugepage_structures.
  comp_unfold. world_simpl.
  rewrite Hu. cbn [negb]. world_simpl. rewrite Hnx. world_simpl.
  rewrite Htid. world_simpl. rewrite Hn. world_simpl. rewrite Hex.
  world_simpl. rewrite Hport. world_simpl. rewrite Hnuma. world_simpl.
  fold t. rewrite lookup_insert_eq. world_simpl. fold a.
  rewrite !lookup_insert_eq. fold al.
  destruct (init_hugepage_structures (Transport_new tid port) al)
    as [o [tr' cs]].
  rewrite !insert_insert_eq.
  destruct o as [[]|e| |].
  - unfold update_hook, nexus_register_hook, deref_nexus, modify.
    comp_unfold. world_simpl. rewrite Hn. world_simpl.
    rewrite <- !app_assoc. reflexivity.
  - destruct e as [what|what|what];
      try (world_simpl; rewrite <- !app_assoc; reflexivity).
    erewrite delete_HugeAllocator_live;
      [| exact Ha0 | world_simpl; apply lookup_insert_eq
       | world_simpl; apply lookup_insert_eq].
    world_simpl.
    rewrite delete_insert_id by exact Haf.
    rewrite <- !app_assoc. reflexivity.
  - world_simpl; rewrite <- !app_assoc; reflexivity.
  - world_simpl; rewrite <- !app_assoc; reflexivity.
Qed.

(** When the second phase of the transport throws a [std::runtime_error], the
    constructor throws it on; the allocator it created is gone and each chunk
    it held has been deregistered; the transport it created is still there. *)
Lemma Rpc_ctor_init_failure (nx ctx tid handler port numa : N) (n : Nexus) pr
    (what : string) (tr' : T) (cs : list N) :
  uid pr = 0 →
  nx ≠ nullptr →
  nexuses pr !! nx = Some n →
  tid ≠ kInvalidAppTid →
  tid ∉ reg_hooks n →
  port < kMaxPhyPorts →
  numa < kMaxNumaNodes →
  let t := fresh_addr (transports pr) in
  let a := fresh_addr (allocators pr) in
  init_hugepage_structures (Transport_new tid port)
    (mkHugeAllocator kInitialHugeAllocSize numa t
       (HugeAllocator_reserve kInitialHugeAllocSize numa))
  = (Throw (runtime_error what), (tr', cs)) →
  ∃ pr',
    Rpc_ctor nx ctx tid handler port numa pr = (Throw (runtime_error what), pr')
    ∧ allocators pr' = allocators pr
    ∧ transports pr !! t = None
    ∧ transports pr' = <[t := tr']> (transports pr)
    ∧ trace pr' = trace pr ++ [EvNewTransport t; EvNewHugeAlloc a]
                           ++ map (EvDeregMr t) cs ++ [EvDeleteHugeAlloc a].
Proof.
  intros Hu Hnx Hn Htid Hreg Hport Hnuma t a Hinit.
  rewrite (Rpc_ctor_checked nx ctx tid handler port numa n pr
             Hu Hnx Hn Htid Hreg Hport Hnuma).
  cbv zeta. fold t. fold a. rewrite Hinit.
  eexists. split; [reflexivity|].
  cbn [allocators transports trace]. repeat split.
  apply (fresh_addr_spec (transports pr)).
Qed.

(** ** Construction with invalid arguments *)

Lemma Rpc_ctor_null_nexus (ctx tid handler port numa : N) pr :
  uid pr = 0 →
  Rpc_ctor nullptr ctx tid handler port numa pr
  = (Throw (invalid_argument "eRPC Rpc: Invalid nexus"), pr).
Proof.
  intros Hu. apply N.eqb_eq in Hu.
  unfold Rpc_ctor, Rpc_body, Rpc_init, getuid. comp_unfold. world_simpl.
  rewrite Hu. reflexivity.
Qed.

Lemma Rpc_ctor_bad_app_tid (nx ctx tid handler port numa : N) pr :
  uid pr = 0 →
  nx ≠ nullptr →
  tid = kInvalidAppTid ∨ (∃ n, nexuses pr !! nx = Some n ∧ tid ∈ reg_hooks n) →
  Rpc_ctor nx ctx tid handler port numa pr
  = (Throw (invalid_argument "eRPC Rpc: Invalid app_tid"), pr).
Proof.
  intros Hu Hnx Hbad. apply N.eqb_eq in Hu. apply N.eqb_neq in Hnx.
  unfold Rpc_ctor, Rpc_body, Rpc_init, getuid, nexus_app_tid_exists, deref_nexus.
  comp_unfold. world_simpl. rewrite Hu. cbn [negb]. world_simpl. rewrite Hnx.
  world_simpl.
  destruct (N.eqb_spec tid kInvalidAppTid) as [E|E]; [reflexivity|].
  destruct Hbad as [?|(n & Hn & Hreg)]; [contradiction|].
  world_simpl. rewrite Hn. unfold Nexus_app_tid_exists.
  rewrite bool_decide_eq_true_2 by exact Hreg. reflexivity.
Qed.

Lemma Rpc_ctor_bad_port (nx ctx tid handler port numa : N) (n : Nexus) pr :
  uid pr = 0 →
  nx ≠ nullptr →
  nexuses pr !! nx = Some n →
  tid ≠ kInvalidAppTid →
  tid ∉ reg_hooks n →
  kMaxPhyPorts ≤ port →
  Rpc_ctor nx ctx tid handler port numa pr
  = (Throw (invalid_argument "eRPC Rpc: Invalid physical port"), pr).
Proof.
  intros Hu Hnx Hn Htid Hreg Hport.
  apply N.eqb_eq in Hu. apply N.eqb_neq in Hnx, Htid. apply N.leb_le in Hport.
  unfold Rpc_ctor, Rpc_body, Rpc_init, getuid, nexus_app_tid_exists, deref_nexus.
  comp_unfold. world_simpl. rewrite Hu. cbn [negb]. world_simpl. rewrite Hnx.
  world_simpl. rewrite Htid. world_simpl. rewrite Hn. unfold Nexus_app_tid_exists.
  rewrite bool_decide_eq_false_2 by exact Hreg. world_simpl. rewrite Hport.
  reflexivity.
Qed.

Lemma Rpc_ctor_bad_numa (nx ctx tid handler port numa : N) (n : Nexus) pr :
  uid pr = 0 →
  nx ≠ nullptr →
  nexuses pr !! nx = Some n →
  tid ≠ kInvalidAppTid →
  tid ∉ reg_hooks n →
  port < kMaxPhyPorts →
  kMaxNumaNodes ≤ numa →
  Rpc_ctor nx ctx tid handler port numa pr
  = (Throw (invalid_argument "eRPC Rpc: Invalid NUMA node"), pr).
Proof.
  intros Hu Hnx Hn Htid Hreg Hport Hnuma.
  apply N.eqb_eq in Hu. apply N.eqb_neq in Hnx, Htid.
  apply N.leb_gt in Hport. apply N.leb_le in Hnuma.
  unfold Rpc_ctor, Rpc_body, Rpc_init, getuid, nexus_app_tid_exists, deref_nexus.
  comp_unfold. world_simpl. rewrite Hu. cbn [negb]. world_simpl. rewrite Hnx.
  world_simpl. rewrite Htid. world_simpl. rewrite Hn. unfold Nexus_app_tid_exists.
  rewrite bool_decide_eq_false_2 by exact Hreg. world_simpl. rewrite Hport.
  world_simpl. rewrite Hnuma. reflexivity.
Qed.

(** A constructor that returns was run by root on a live Nexus, and has
    registered its application-thread id there. *)
Lemma Rpc_ctor_returns (nx ctx tid handler port numa : N) pr (r1 : Rpc R) pr1 :
  Rpc_ctor nx ctx tid handler port numa pr = (Ret r1, pr1) →
  uid pr1 = 0 ∧ nx ≠ nullptr
  ∧ ∃ n1, nexuses pr1 !! nx = Some n1 ∧ tid ∈ reg_hooks n1.
Proof.
  intros Hret.
  destruct (N.eqb_spec (uid pr) 0) as [Hu|Hu].
  2:{ rewrite Rpc_ctor_not_root in Hret by exact Hu. discriminate. }
  destruct (N.eqb_spec nx nullptr) as [->|Hnx].
  { rewrite Rpc_ctor_null_nexus in Hret by exact Hu. discriminate. }
  destruct (N.eqb_spec tid kInvalidAppTid) as [Htid|Htid].
  { rewrite Rpc_ctor_bad_app_tid in Hret by auto. discriminate. }
  destruct (nexuses pr !! nx) as [n|] eqn:Hn.
  2:{ exfalso. revert Hret. apply N.eqb_eq in Hu. apply N.eqb_neq in Hnx, Htid.
      unfold Rpc_ctor, Rpc_body, Rpc_init, getuid, nexus_app_tid_exists,
        deref_nexus.
      comp_unfold. world_simpl. rewrite Hu. cbn [negb]. world_simpl.
      rewrite Hnx. world_simpl. rewrite Htid. world_simpl. rewrite Hn.
      discriminate. }
  destruct (decide (tid ∈ reg_hooks n)) as [Hreg|Hreg].
  { rewrite Rpc_ctor_bad_app_tid in Hret by eauto. discriminate. }
  destruct (N.le_gt_cases kMaxPhyPorts port) as [Hport|Hport].
  { rewrite (Rpc_ctor_bad_port _ _ _ _ _ _ n) in Hret by auto. discriminate. }
  destruct (N.le_gt_cases kMaxNumaNodes numa) as [Hnuma|Hnuma].
  { rewrite (Rpc_ctor_bad_numa _ _ _ _ _ _ n) in Hret by auto. discriminate. }
  rewrite (Rpc_ctor_checked nx ctx tid handler port numa n pr
             Hu Hnx Hn Htid Hreg Hport Hnuma) in Hret.
  cbv zeta in Hret.
  destruct (init_hugepage_structures _ _) as [o [tr' cs]].
  destruct o as [[]|e| |]; try discriminate.
  2:{ destruct e; discriminate. }
  injection Hret as _ <-. cbn [uid nexuses set_nexuses].
  repeat split; [exact Hu | exact Hnx |].
  exists (Nexus_register_hook n tid). split.
  - apply lookup_insert_eq.
  - unfold Nexus_register_hook. cbn [reg_hooks]. set_solver.
Qed.

(** C7, for a process run by root.  Each argument violation makes the
    constructor throw [std::invalid_argument] and leaves the process exactly
    as it was (nothing created, nothing recorded): a null Nexus pointer, an
    application-thread id that is [kInvalidAppTid] or registered at the
    Nexus, a port not below [kMaxPhyPorts], a NUMA node not below
    [kMaxNumaNodes].  The message names the first violation in this order.
    After a constructor returned, a second construction with the same
    application-thread id on the same Nexus throws [std::invalid_argument]. *)
Theorem ctor_invalid_argument (nx ctx tid handler port numa : N) pr :
  uid pr = 0 →
  let ctor := Rpc_ctor nx ctx tid handler port numa pr in
  let registered := ∃ n, nexuses pr !! nx = Some n ∧ tid ∈ reg_hooks n in
  let unregistered := ∃ n, nexuses pr !! nx = Some n ∧ tid ∉ reg_hooks n in
  (nx = nullptr ∨ is_Some (nexuses pr !! nx) →
   nx = nullptr ∨ tid = kInvalidAppTid ∨ registered
   ∨ kMaxPhyPorts ≤ port ∨ kMaxNumaNodes ≤ numa →
   ∃ what, ctor = (Throw (invalid_argument what), pr))
  ∧ (nx = nullptr →
     ctor = (Throw (invalid_argument "eRPC Rpc: Invalid nexus"), pr))
  ∧ (nx ≠ nullptr → tid = kInvalidAppTid ∨ registered →
     ctor = (Throw (invalid_argument "eRPC Rpc: Invalid app_tid"), pr))
  ∧ (nx ≠ nullptr → tid ≠ kInvalidAppTid → unregistered →
     kMaxPhyPorts ≤ port →
     ctor = (Throw (invalid_argument "eRPC Rpc: Invalid physical port"), pr))
  ∧ (nx ≠ nullptr → tid ≠ kInvalidAppTid → unregistered →
     port < kMaxPhyPorts → kMaxNumaNodes ≤ numa →
     ctor = (Throw (invalid_argument "eRPC Rpc: Invalid NUMA node"), pr))
  ∧ (∀ (r1 : Rpc R) pr1 (ctx' handler' port' numa' : N),
       ctor = (Ret r1, pr1) →
       Rpc_ctor nx ctx' tid handler' port' numa' pr1
       = (Throw (invalid_argument "eRPC Rpc: Invalid app_tid"), pr1)).
Proof.
  intros Hu ctor registered unregistered. subst ctor registered unregistered.
  assert (Hnull : nx = nullptr →
            Rpc_ctor nx ctx tid handler port numa pr
            = (Throw (invalid_argument "eRPC Rpc: Invalid nexus"), pr))
    by (intros ->; by apply Rpc_ctor_null_nexus).
  assert (Htid : nx ≠ nullptr →
            tid = kInvalidAppTid
            ∨ (∃ n, nexuses pr !! nx = Some n ∧ tid ∈ reg_hooks n) →
            Rpc_ctor nx ctx tid handler port numa pr
            = (Throw (invalid_argument "eRPC Rpc: Invalid app_tid"), pr))
    by (intros; by apply Rpc_ctor_bad_app_tid).
  assert (Hport : nx ≠ nullptr → tid ≠ kInvalidAppTid →
            (∃ n, nexuses pr !! nx = Some n ∧ tid ∉ reg_hooks n) →
            kMaxPhyPorts ≤ port →
            Rpc_ctor nx ctx tid handler port numa pr
            = (Throw (invalid_argument "eRPC Rpc: Invalid physical port"), pr))
    by (intros ? ? (n & ? & ?) ?; by apply (Rpc_ctor_bad_port _ _ _ _ _ _ n)).
  assert (Hnuma : nx ≠ nullptr → tid ≠ kInvalidAppTid →
            (∃ n, nexuses pr !! nx = Some n ∧ tid ∉ reg_hooks n) →
            port < kMaxPhyPorts → kMaxNumaNodes ≤ numa →
            Rpc_ctor nx ctx tid handler port numa pr
            = (Throw (invalid_argument "eRPC Rpc: Invalid NUMA node"), pr))
    by (intros ? ? (n & ? & ?) ? ?; by apply (Rpc_ctor_bad_numa _ _ _ _ _ _ n)).
  split; [|split; [|split; [|split; [|split]]]]; try assumption.
  - intros Hdir Hviol.
    destruct (decide (nx = nullptr)) as [E|Hnx]; [eauto|].
    destruct (decide (tid = kInvalidAppTid)) as [E|Ht]; [eauto|].
    destruct Hdir as [?|[n Hn]]; [contradiction|].
    destruct (decide (tid ∈ reg_hooks n)) as [Hreg|Hreg]; [eauto 6|].
    destruct (N.le_gt_cases kMaxPhyPorts port) as [Hp|Hp]; [eauto 6|].
    destruct Hviol as [?|[?|[(n' & Hn' & Hreg')|[?|Hm]]]];
      try contradiction; try lia.
    + congruence.
    + eauto 6.
  - intros r1 pr1 ctx' handler' port' numa' Hret.
    destruct (Rpc_ctor_returns _ _ _ _ _ _ _ _ _ Hret) as (Hu1 & Hnx & n1 & Hn1 & Hreg1).
    apply Rpc_ctor_bad_app_tid; eauto.
Qed.

(** ** The session-management drain *)

Lemma names_this_rpc_live (who : SessionMetadata.t) (n : Nexus) w :
  nexuses (proc w) !! nexus (this w) = Some n →
  names_this_rpc who w
  = (Ret ((strcmp (SessionMetadata.hostname who) (nexus_hostname n) =? 0)%Z
          && (SessionMetadata.app_tid who =? app_tid (this w))), w).
Proof.
  intros Hn. unfold names_this_rpc, deref_nexus. comp_unfold.
  rewrite Hn. reflexivity.
Qed.

Lemma names_this_rpc_true (who : SessionMetadata.t) (n : Nexus) (tid : N) :
  (strcmp (SessionMetadata.hostname who) (nexus_hostname n) =? 0)%Z
  && (SessionMetadata.app_tid who =? tid) = true
  ↔ SessionMetadata.hostname who = nexus_hostname n
    ∧ SessionMetadata.app_tid who = tid.
Proof. by rewrite andb_true_iff, strcmp_eq0, N.eqb_eq. Qed.

(** The check at the head of the loop body, on the block [requester] picks. *)
Lemma handle_sm_pkt_guard (sm_pkt : SessionMgmtPkt.t) (n : Nexus) w :
  nexuses (proc w) !! nexus (this w) = Some n →
  handle_sm_pkt sm_pkt w
  = if (strcmp (SessionMetadata.hostname (requester sm_pkt)) (nexus_hostname n) =? 0)%Z
       && (SessionMetadata.app_tid (requester sm_pkt) =? app_tid (this w))
    then (Abort, w)
    else (Ret tt, after_pkt sm_pkt w).
Proof.
  intros Hn. unfold handle_sm_pkt, requester.
  unfold mbind at 1, Comp_mbind, comp_bind at 1.
  destruct (session_mgmt_is_pkt_type_req (SessionMgmtPkt.pkt_type sm_pkt)).
  - unfold mbind at 1, comp_bind at 1.
    rewrite (names_this_rpc_live _ n w Hn).
    destruct (_ && _); [reflexivity|]. cbn [negb].
    unfold after_pkt, dispatch, table, call_handler, log.
    destruct (SessionMgmtPkt.pkt_type sm_pkt); comp_unfold; world_simpl;
      rewrite <- !app_assoc; reflexivity.
  - unfold mbind at 1, comp_bind at 1.
    rewrite (names_this_rpc_live _ n w Hn).
    destruct (_ && _); [reflexivity|]. cbn [negb].
    unfold after_pkt, dispatch, table, call_handler, log.
    destruct (SessionMgmtPkt.pkt_type sm_pkt); comp_unfold; world_simpl;
      rewrite <- !app_assoc; reflexivity.
Qed.

(** Handling packets changes the session table and the record of events and
    nothing else. *)
Lemma after_pkts_frame (l : list SessionMgmtPkt.t) w :
  nexus (this (after_pkts l w)) = nexus (this w)
  ∧ app_tid (this (after_pkts l w)) = app_tid (this w)
  ∧ sm_hook (this (after_pkts l w)) = sm_hook (this w)
  ∧ nexuses (proc (after_pkts l w)) = nexuses (proc w)
  ∧ trace (proc (after_pkts l w)) = trace (proc w) ++ drain_events l
  ∧ table (after_pkts l w) = drain_table l (table w).
Proof.
  revert w. induction l as [|p l IH]; intros w.
  - simpl. rewrite app_nil_r. repeat split; reflexivity.
  - unfold after_pkts, drain_table. cbn [fold_left].
    fold (after_pkts l (after_pkt p w)).
    fold (drain_table l (dispatch p (table w))).
    destruct (IH (after_pkt p w)) as (H1 & H2 & H3 & H4 & H5 & H6).
    rewrite H1, H2, H3, H4, H5, H6.
    unfold after_pkt, table. world_simpl.
    repeat split; try reflexivity.
    + unfold drain_events. cbn [flat_map]. by rewrite <- !app_assoc.
    + by destruct (dispatch p _).
Qed.

(** A batch none of whose packets names this endpoint is handled to its end. *)
Lemma drain_loop_ok (l : list SessionMgmtPkt.t) (n : Nexus) w :
  nexuses (proc w) !! nexus (this w) = Some n →
  (∀ p, p ∈ l →
        ¬ (SessionMetadata.hostname (requester p) = nexus_hostname n
           ∧ SessionMetadata.app_tid (requester p) = app_tid (this w))) →
  for_each handle_sm_pkt l w = (Ret tt, after_pkts l w).
Proof.
  revert w. induction l as [|p l IH]; intros w Hn Hok; [reflexivity|].
  cbn [for_each]. unfold mbind, Comp_mbind, comp_bind.
  rewrite (handle_sm_pkt_guard p n w Hn).
  destruct (_ && _) eqn:E.
  - apply names_this_rpc_true in E. exfalso. apply (Hok p); [left | exact E].
  - destruct (after_pkts_frame [p] w) as (H1 & H2 & _ & H4 & _).
    apply IH.
    + unfold after_pkts in H1, H4. cbn [fold_left] in H1, H4. by rewrite H1, H4.
    + unfold after_pkts in H2. cbn [fold_left] in H2. rewrite H2.
      intros q Hq. apply Hok. by right.
Qed.

(** A batch with a packet that names this endpoint stops at the first such
    packet: the packets before it were handled, no later one. *)
Lemma drain_loop_abort (l : list SessionMgmtPkt.t) (n : Nexus) w :
  nexuses (proc w) !! nexus (this w) = Some n →
  (∃ p, p ∈ l
        ∧ SessionMetadata.hostname (requester p) = nexus_hostname n
        ∧ SessionMetadata.app_tid (requester p) = app_tid (this w)) →
  ∃ pre,
    (∀ q, q ∈ pre →
          ¬ (SessionMetadata.hostname (requester q) = nexus_hostname n
             ∧ SessionMetadata.app_tid (requester q) = app_tid (this w)))
    ∧ for_each handle_sm_pkt l w = (Abort, after_pkts pre w).
Proof.
  revert w. induction l as [|p l IH]; intros w Hn (q & Hq & Hself).
  - by apply elem_of_nil in Hq.
  - cbn [for_each]. unfold mbind, Comp_mbind, comp_bind.
    rewrite (handle_sm_pkt_guard p n w Hn).
    destruct (_ && _) eqn:E.
    + exists []. split; [|reflexivity]. intros ? Hin. by apply elem_of_nil in Hin.
    + assert (Hp : ¬ (SessionMetadata.hostname (requester p) = nexus_hostname n
                      ∧ SessionMetadata.app_tid (requester p) = app_tid (this w))).
      { intros Hp. apply names_this_rpc_true in Hp. congruence. }
      apply elem_of_cons in Hq as [->|Hq]; [contradiction|].
      destruct (after_pkts_frame [p] w) as (H1 & H2 & _ & H4 & _).
      unfold after_pkts in H1, H2, H4. cbn [fold_left] in H1, H2, H4.
      destruct (IH (after_pkt p w)) as (pre & Hpre & Hrun).
      * by rewrite H1, H4.
      * exists q. by rewrite H2.
      * exists (p :: pre). split.
        -- intros x Hx. apply elem_of_cons in Hx as [->|Hx]; [exact Hp|].
           rewrite <- H2. by apply Hpre.
        -- exact Hrun.
Qed.

Lemma in_drain_events (e : Event) (l : list SessionMgmtPkt.t) :
  e ∈ drain_events l →
  ∃ p, p ∈ l ∧ (e = EvHandler (SessionMgmtPkt.pkt_type p) p ∨ e = EvFree p).
Proof.
  unfold drain_events. rewrite list_elem_of_In, in_flat_map.
  intros (p & Hp & He). exists p. rewrite list_elem_of_In. split; [exact Hp|].
  destruct He as [<-|[<-|[]]]; auto.
Qed.

(** The endpoint with the hook's mutex taken, as the loop sees it. *)
Lemma locked_frame w :
  let w1 := with_this (λ r, set_sm_hook (set_hook_mutex true (sm_hook r)) r) w in
  nexus (this w1) = nexus (this w)
  ∧ app_tid (this w1) = app_tid (this w)
  ∧ nexuses (proc w1) = nexuses (proc w)
  ∧ trace (proc w1) = trace (proc w)
  ∧ table w1 = table w
  ∧ session_mgmt_pkt_list (sm_hook (this w1))
    = session_mgmt_pkt_list (sm_hook (this w)).
Proof. repeat split; reflexivity. Qed.

(** C5.  When a pending packet reports this endpoint's own identity (the
    host name of its Nexus and its application-thread id) in its requester
    block (the client block of a request, the server block of a response),
    [handle_session_management] stops at an [assert]: it does not return, and
    in what it did before stopping no handler was called with that packet and
    the packet was not freed. *)
Theorem drain_self_addressed_is_fatal w (n : Nexus) (p : SessionMgmtPkt.t) :
  nexuses (proc w) !! nexus (this w) = Some n →
  p ∈ session_mgmt_pkt_list (sm_hook (this w)) →
  SessionMetadata.hostname (requester p) = nexus_hostname n →
  SessionMetadata.app_tid (requester p) = app_tid (this w) →
  ∃ w' evs,
    handle_session_management w = (Abort, w')
    ∧ trace (proc w') = trace (proc w) ++ evs
    ∧ (∀ k, EvHandler k p ∉ evs)
    ∧ EvFree p ∉ evs.
Proof.
  intros Hn Hp Hhost Htid.
  unfold handle_session_management.
  unfold mbind at 1, Comp_mbind, comp_bind at 1, member at 1, gets.
  unfold mbind at 1, comp_bind at 1, assert.
  destruct (0 <? session_mgmt_ev_counter (sm_hook (this w))).
  2:{ exists w, []. rewrite app_nil_r.
      repeat split; try reflexivity; intros; apply not_elem_of_nil. }
  unfold mret at 1, Comp_mret, comp_ret.
  unfold mbind at 1, comp_bind at 1, update_hook at 1, modify.
  unfold mbind at 1, comp_bind at 1, member at 1, gets.
  unfold mbind at 1, comp_bind at 1.
  set (w1 := with_this (λ r, set_sm_hook (set_hook_mutex true (sm_hook r)) r) w).
  destruct (locked_frame w) as (F1 & F2 & F3 & F4 & _ & F6). fold w1 in F1, F2, F3, F4, F6.
  destruct (drain_loop_abort (session_mgmt_pkt_list (sm_hook (this w1))) n w1)
    as (pre & Hpre & Hrun).
  { by rewrite F1, F3. }
  { exists p. rewrite F6, F2. auto. }
  rewrite Hrun. exists (after_pkts pre w1), (drain_events pre).
  destruct (after_pkts_frame pre w1) as (_ & _ & _ & _ & Htr & _).
  rewrite Htr, F4. split; [reflexivity|]. split; [reflexivity|].
  assert (Hnot : p ∉ pre).
  { intros Hin. apply (Hpre p Hin). rewrite F2. auto. }
  split.
  - intros k Hin. apply in_drain_events in Hin as (q & Hq & [E|E]).
    + injection E as _ ->. contradiction.
    + discriminate.
  - intros Hin. apply in_drain_events in Hin as (q & Hq & [E|E]).
    + discriminate.
    + injection E as ->. contradiction.
Qed.

(** C4, for a batch none of whose packets reports this endpoint as its
    author.  With a [session_mgmt_ev_counter] of 0,
    [handle_session_management] stops at its first [assert].  With a nonzero
    counter it returns, for a list of any length; what it records is, packet
    by packet in the order of the list, the call of the handler and then the
    freeing of the packet; the session table is what the handlers make of it
    in that order; at the end the list is empty, the counter is 0 and the
    mutex is released. *)
Theorem drain_fifo w (n : Nexus) :
  nexuses (proc w) !! nexus (this w) = Some n →
  (∀ p, p ∈ session_mgmt_pkt_list (sm_hook (this w)) →
        ¬ (SessionMetadata.hostname (requester p) = nexus_hostname n
           ∧ SessionMetadata.app_tid (requester p) = app_tid (this w))) →
  (session_mgmt_ev_counter (sm_hook (this w)) = 0 →
   handle_session_management w = (Abort, w))
  ∧ (0 < session_mgmt_ev_counter (sm_hook (this w)) →
     ∃ w',
       handle_session_management w = (Ret tt, w')
       ∧ trace (proc w')
         = trace (proc w)
           ++ drain_events (session_mgmt_pkt_list (sm_hook (this w)))
       ∧ table w'
         = drain_table (session_mgmt_pkt_list (sm_hook (this w))) (table w)
       ∧ session_mgmt_pkt_list (sm_hook (this w')) = []
       ∧ session_mgmt_ev_counter (sm_hook (this w')) = 0
       ∧ session_mgmt_mutex (sm_hook (this w')) = false).
Proof.
  intros Hn Hok. split.
  { intros Hz. unfold handle_session_management. comp_unfold.
    rewrite Hz. reflexivity. }
  intros Hcnt. apply N.ltb_lt in Hcnt.
  unfold handle_session_management.
  unfold mbind at 1, Comp_mbind, comp_bind at 1, member at 1, gets.
  unfold mbind at 1, comp_bind at 1, assert. rewrite Hcnt.
  unfold mret at 1, Comp_mret, comp_ret.
  unfold mbind at 1, comp_bind at 1, update_hook at 1, modify.
  unfold mbind at 1, comp_bind at 1, member at 1, gets.
  unfold mbind at 1, comp_bind at 1.
  set (w1 := with_this (λ r, set_sm_hook (set_hook_mutex true (sm_hook r)) r) w).
  destruct (locked_frame w) as (F1 & F2 & F3 & F4 & F5 & F6).
  fold w1 in F1, F2, F3, F4, F5, F6.
  rewrite (drain_loop_ok (session_mgmt_pkt_list (sm_hook (this w1))) n w1).
  2:{ by rewrite F1, F3. }
  2:{ rewrite F6, F2. exact Hok. }
  destruct (after_pkts_frame (session_mgmt_pkt_list (sm_hook (this w1))) w1)
    as (_ & _ & _ & _ & Htr & Htb).
  rewrite F6 in *. rewrite F4 in Htr. rewrite F5 in Htb.
  eexists. split.
  - unfold update_hook. comp_unfold. reflexivity.
  - unfold table in *. world_simpl. rewrite Htr.
    repeat split; try reflexivity. exact Htb.
Qed.

End Properties.

(** * Further properties of the endpoint *)

Section Further.

Context {K : Constants} {T R : Type} {TI : TransportIface T} {RI : RandIface R}.
Context {SH : SmHandlers}.

Implicit Types (w : World T R) (pr : Proc T).

(** ** Construction that succeeds *)

(** X1.  Run by root with a valid Nexus pointer, an application-thread id
    that is neither [kInvalidAppTid] nor registered, a port below
    [kMaxPhyPorts] and a NUMA node below [kMaxNumaNodes], and with a transport
    whose second phase returns, the constructor returns.  The endpoint has
    its arguments as members, an empty session table and an empty hook with
    its id; it owns a new transport and a new allocator bound to that
    transport, both at addresses that are not null and were free; its id is
    registered at the Nexus; sessions and user id are as before. *)
Theorem ctor_success (nx ctx tid handler port numa : N) (n : Nexus) pr
    (tr' : T) (cs : list N) :
  uid pr = 0 →
  nx ≠ nullptr →
  nexuses pr !! nx = Some n →
  tid ≠ kInvalidAppTid →
  tid ∉ reg_hooks n →
  port < kMaxPhyPorts →
  numa < kMaxNumaNodes →
  init_hugepage_structures (Transport_new tid port)
    (mkHugeAllocator kInitialHugeAllocSize numa (fresh_addr (transports pr))
       (HugeAllocator_reserve kInitialHugeAllocSize numa))
  = (Ret tt, (tr', cs)) →
  ∃ (r : Rpc R) pr1,
    Rpc_ctor nx ctx tid handler port numa pr = (Ret r, pr1)
    ∧ (nexus r, context r, app_tid r, session_mgmt_handler r, phy_port r,
       numa_node r) = (nx, ctx, tid, handler, port, numa)
    ∧ session_vec r = []
    ∧ sm_hook r = mkHook tid 0 false []
    ∧ transport r ≠ nullptr
    ∧ transports pr !! transport r = None
    ∧ transports pr1 = <[transport r := tr']> (transports pr)
    ∧ huge_alloc r ≠ nullptr
    ∧ allocators pr !! huge_alloc r = None
    ∧ allocators pr1
      = <[huge_alloc r := mkHugeAllocator kInitialHugeAllocSize numa
                            (transport r) cs]> (allocators pr)
    ∧ nexuses pr1 = <[nx := Nexus_register_hook n tid]> (nexuses pr)
    ∧ sessions pr1 = sessions pr
    ∧ uid pr1 = uid pr.
Proof.
  intros Hu Hnx Hn Htid Hreg Hport Hnuma Hinit.
  rewrite (Rpc_ctor_checked nx ctx tid handler port numa n pr
             Hu Hnx Hn Htid Hreg Hport Hnuma).
  cbv zeta. rewrite Hinit.
  destruct (fresh_addr_spec (transports pr)) as [Ht0 Htf].
  destruct (fresh_addr_spec (allocators pr)) as [Ha0 Haf].
  eexists _, _. split; [reflexivity|].
  cbn [nexus context app_tid session_mgmt_handler phy_port numa_node
       session_vec sm_hook transport huge_alloc set_nexuses
       transports allocators nexuses sessions uid].
  repeat split; assumption.
Qed.

(** The ways a constructor call can go: one of its own checks throws or it
    reads through a dangling Nexus pointer, the process being as before; or
    every check passes. *)
Lemma Rpc_ctor_cases (nx ctx tid handler port numa : N) pr :
  (∃ e, Rpc_ctor nx ctx tid handler port numa pr = (Throw e, pr))
  ∨ Rpc_ctor nx ctx tid handler port numa pr = (Undef, pr)
  ∨ (∃ n, uid pr = 0 ∧ nx ≠ nullptr ∧ nexuses pr !! nx = Some n
          ∧ tid ≠ kInvalidAppTid ∧ (tid ∉ reg_hooks n)
          ∧ port < kMaxPhyPorts ∧ numa < kMaxNumaNodes).
Proof.
  destruct (N.eqb_spec (uid pr) 0) as [Hu|Hu].
  2:{ left. eexists. by apply Rpc_ctor_not_root. }
  destruct (N.eqb_spec nx nullptr) as [->|Hnx].
  { left. eexists. by apply Rpc_ctor_null_nexus. }
  destruct (N.eqb_spec tid kInvalidAppTid) as [Htid|Htid].
  { left. eexists. apply Rpc_ctor_bad_app_tid; auto. }
  destruct (nexuses pr !! nx) as [n|] eqn:Hn.
  2:{ right. left. apply N.eqb_eq in Hu. apply N.eqb_neq in Hnx, Htid.
      unfold Rpc_ctor, Rpc_body, Rpc_init, getuid, nexus_app_tid_exists,
        deref_nexus.
      comp_unfold. world_simpl. rewrite Hu. cbn [negb]. world_simpl.
      rewrite Hnx. world_simpl. rewrite Htid. world_simpl. rewrite Hn.
      reflexivity. }
  destruct (decide (tid ∈ reg_hooks n)) as [Hreg|Hreg].
  { left. eexists. apply Rpc_ctor_bad_app_tid; eauto. }
  destruct (N.le_gt_cases kMaxPhyPorts port) as [Hport|Hport].
  { left. eexists. by apply (Rpc_ctor_bad_port _ _ _ _ _ _ n). }
  destruct (N.le_gt_cases kMaxNumaNodes numa) as [Hnuma|Hnuma].
  { left. eexists. by apply (Rpc_ctor_bad_numa _ _ _ _ _ _ n). }
  right. right. exists n. auto 10.
Qed.

(** A constructor call that returns went through every check and through a
    second phase of the transport that returned. *)
Lemma Rpc_ctor_inv (nx ctx tid handler port numa : N) pr (r : Rpc R) pr1 :
  Rpc_ctor nx ctx tid handler port numa pr = (Ret r, pr1) →
  ∃ n tr' cs,
    uid pr = 0 ∧ nx ≠ nullptr ∧ nexuses pr !! nx = Some n
    ∧ tid ≠ kInvalidAppTid ∧ (tid ∉ reg_hooks n)
    ∧ port < kMaxPhyPorts ∧ numa < kMaxNumaNodes
    ∧ init_hugepage_structures (Transport_new tid port)
        (mkHugeAllocator kInitialHugeAllocSize numa
           (fresh_addr (transports pr))
           (HugeAllocator_reserve kInitialHugeAllocSize numa))
      = (Ret tt, (tr', cs)).
Proof.
  intros Hret.
  destruct (Rpc_ctor_cases nx ctx tid handler port numa pr)
    as [[e He]|[He|(n & Hu & Hnx & Hn & Htid & Hreg & Hport & Hnuma)]];
    [congruence | congruence |].
  rewrite (Rpc_ctor_checked nx ctx tid handler port numa n pr
             Hu Hnx Hn Htid Hreg Hport Hnuma) in Hret.
  cbv zeta in Hret.
  destruct (init_hugepage_structures _ _) as [o [tr' cs]].
  destruct o as [[]|e| |]; try discriminate.
  2:{ destruct e; discriminate. }
  exists n, tr', cs. auto 10.
Qed.

(** X2.  The constructor returns only when it is run by root, the Nexus
    pointer is not null and points to a Nexus where the id is not
    registered, the id is not [kInvalidAppTid], port and NUMA node are below
    their bounds, and the second phase of the transport returned. *)
Theorem ctor_returns_only_if_valid (nx ctx tid handler port numa : N) pr
    (r : Rpc R) pr1 :
  Rpc_ctor nx ctx tid handler port numa pr = (Ret r, pr1) →
  uid pr = 0
  ∧ nx ≠ nullptr
  ∧ tid ≠ kInvalidAppTid
  ∧ (∃ n, nexuses pr !! nx = Some n ∧ tid ∉ reg_hooks n)
  ∧ port < kMaxPhyPorts
  ∧ numa < kMaxNumaNodes
  ∧ fst (init_hugepage_structures (Transport_new tid port)
           (mkHugeAllocator kInitialHugeAllocSize numa
              (fresh_addr (transports pr))
              (HugeAllocator_reserve kInitialHugeAllocSize numa)))
    = Ret tt.
Proof.
  intros Hret.
  destruct (Rpc_ctor_inv _ _ _ _ _ _ _ _ _ Hret)
    as (n & tr' & cs & Hu & Hnx & Hn & Htid & Hreg & Hport & Hnuma & Hinit).
  rewrite Hinit. eauto 10.
Qed.

(** X3.  The [catch] clause is for [std::runtime_error] only.  When the
    second phase of the transport throws an exception of another class, the
    constructor lets it through as it is and deletes nothing: the new
    transport and the new allocator are both still allocated, and no
    deregistration is recorded. *)
Theorem ctor_uncaught_exception (nx ctx tid handler port numa : N) (n : Nexus)
    pr (e : exn) (tr' : T) (cs : list N) :
  uid pr = 0 →
  nx ≠ nullptr →
  nexuses pr !! nx = Some n →
  tid ≠ kInvalidAppTid →
  tid ∉ reg_hooks n →
  port < kMaxPhyPorts →
  numa < kMaxNumaNodes →
  (∀ what, e ≠ runtime_error what) →
  let t := fresh_addr (transports pr) in
  let a := fresh_addr (allocators pr) in
  init_hugepage_structures (Transport_new tid port)
    (mkHugeAllocator kInitialHugeAllocSize numa t
       (HugeAllocator_reserve kInitialHugeAllocSize numa))
  = (Throw e, (tr', cs)) →
  ∃ pr',
    Rpc_ctor nx ctx tid handler port numa pr = (Throw e, pr')
    ∧ transports pr' !! t = Some tr'
    ∧ allocators pr' !! a
      = Some (mkHugeAllocator kInitialHugeAllocSize numa t cs)
    ∧ trace pr' = trace pr ++ [EvNewTransport t; EvNewHugeAlloc a]
    ∧ nexuses pr' = nexuses pr.
Proof.
  intros Hu Hnx Hn Htid Hreg Hport Hnuma He t a Hinit.
  rewrite (Rpc_ctor_checked nx ctx tid handler port numa n pr
             Hu Hnx Hn Htid Hreg Hport Hnuma).
  cbv zeta. fold t. fold a. rewrite Hinit.
  destruct e as [what|what|what]; [by destruct (He what)| |];
    (eexists; split; [reflexivity|];
     cbn [transports allocators trace nexuses];
     rewrite !lookup_insert_eq; repeat split).
Qed.

(** ** Construction followed by destruction *)






(** ** Burial, continued *)

(** [bury_session] on a live session of the table that, if it is a client
    session, is not in flight: the index is checked by [at]. *)
Lemma bury_session_run (session : N) (s : Session.t) w :
  session ≠ nullptr →
  sessions (proc w) !! session = Some s →
  session ∈ session_vec (this w) →
  (Session.role s = kClient → Session.in_flight s = false) →
  bury_session session w
  = if (N.to_nat (own_session_num s) <? length (session_vec (this w)))%nat
    then (Ret tt, buried session (N.to_nat (own_session_num s)) w)
    else (Throw (out_of_range "vector::_M_range_check"), w).
Proof.
  intros Hnz Hs Hin Hfl. pose proof Hnz as Hnzb. apply N.eqb_neq in Hnzb.
  unfold bury_session, own_session_num.
  unfold mbind at 1, Comp_mbind, comp_bind at 1. unfold assert at 1.
  rewrite Hnzb; simpl.
  unfold mbind at 1, comp_bind at 1. unfold deref_session at 1.
  rewrite Hs.
  destruct (Session.role s) eqn:Hrole.
  - unfold mbind, comp_bind.
    rewrite (is_session_ptr_client_live _ _ _ Hnz Hin Hs), Hrole; simpl.
    rewrite (is_in_flight_live _ _ _ Hs), (Hfl eq_refl); simpl.
    unfold session_vec_at_assign, delete_Session. comp_simpl.
    destruct (_ <? _)%nat; [|reflexivity].
    rewrite Hnzb; simpl. rewrite Hs. reflexivity.
  - unfold mbind, comp_bind.
    rewrite (is_session_ptr_server_live _ _ _ Hnz Hin Hs), Hrole; simpl.
    unfold session_vec_at_assign, delete_Session. comp_simpl.
    destruct (_ <? _)%nat; [|reflexivity].
    rewrite Hnzb; simpl. rewrite Hs. reflexivity.
Qed.

(** The calls of [bury_session] that stop at an [assert]. *)
Lemma bury_session_null w : bury_session nullptr w = (Abort, w).
Proof. reflexivity. Qed.

Lemma bury_session_absent (session : N) (s : Session.t) w :
  session ≠ nullptr →
  sessions (proc w) !! session = Some s →
  session ∉ session_vec (this w) →
  bury_session session w = (Abort, w).
Proof.
  intros Hnz Hs Hout. apply N.eqb_neq in Hnz.
  unfold bury_session.
  unfold mbind at 1, Comp_mbind, comp_bind at 1. unfold assert at 1.
  rewrite Hnz; simpl.
  unfold mbind at 1, comp_bind at 1. unfold deref_session at 1.
  rewrite Hs.
  destruct (Session.role s); unfold mbind, comp_bind.
  - rewrite (is_session_ptr_client_absent _ _ Hout). reflexivity.
  - rewrite (is_session_ptr_server_absent _ _ Hout). reflexivity.
Qed.

Lemma bury_session_in_flight (session : N) (s : Session.t) w :
  session ≠ nullptr →
  sessions (proc w) !! session = Some s →
  session ∈ session_vec (this w) →
  Session.role s = kClient →
  Session.in_flight s = true →
  bury_session session w = (Abort, w).
Proof.
  intros Hnz Hs Hin Hrole Hfl. pose proof Hnz as Hnzb. apply N.eqb_neq in Hnzb.
  unfold bury_session.
  unfold mbind at 1, Comp_mbind, comp_bind at 1. unfold assert at 1.
  rewrite Hnzb; simpl.
  unfold mbind at 1, comp_bind at 1. unfold deref_session at 1.
  rewrite Hs, Hrole. unfold mbind, comp_bind.
  rewrite (is_session_ptr_client_live _ _ _ Hnz Hin Hs), Hrole; simpl.
  rewrite (is_in_flight_live _ _ _ Hs), Hfl; simpl. reflexivity.
Qed.

Lemma bury_session_dangling (session : N) w :
  session ≠ nullptr →
  sessions (proc w) !! session = None →
  bury_session session w = (Undef, w).
Proof.
  intros Hnz Hs. apply N.eqb_neq in Hnz.
  unfold bury_session.
  unfold mbind at 1, Comp_mbind, comp_bind at 1. unfold assert at 1.
  rewrite Hnz; simpl.
  unfold mbind at 1, comp_bind at 1. unfold deref_session at 1.
  rewrite Hs. reflexivity.
Qed.

(** A call of [bury_session] that returns was given a live session of the
    table, not an in-flight client session, whose number is an index of the
    table; it cleared the slot of that number and deleted the session. *)
Lemma bury_session_inv (session : N) w w' :
  bury_session session w = (Ret tt, w') →
  ∃ s,
    session ≠ nullptr
    ∧ sessions (proc w) !! session = Some s
    ∧ session ∈ session_vec (this w)
    ∧ (Session.role s = kClient → Session.in_flight s = false)
    ∧ (N.to_nat (own_session_num s) < length (session_vec (this w)))%nat
    ∧ w' = buried session (N.to_nat (own_session_num s)) w.
Proof.
  intros Hrun.
  destruct (decide (session = nullptr)) as [->|Hnz].
  { rewrite bury_session_null in Hrun. discriminate. }
  destruct (sessions (proc w) !! session) as [s|] eqn:Hs.
  2:{ rewrite bury_session_dangling in Hrun by assumption. discriminate. }
  destruct (decide (session ∈ session_vec (this w))) as [Hin|Hout].
  2:{ rewrite (bury_session_absent _ s) in Hrun by assumption. discriminate. }
  assert (Hfl : Session.role s = kClient → Session.in_flight s = false).
  { intros Hrole. destruct (Session.in_flight s) eqn:Hf; [|reflexivity].
    rewrite (bury_session_in_flight _ s) in Hrun by assumption. discriminate. }
  rewrite (bury_session_run _ s) in Hrun by assumption.
  destruct (_ <? _)%nat eqn:Hlt; [|discriminate].
  apply Nat.ltb_lt in Hlt. injection Hrun as <-.
  exists s. auto 10.
Qed.

(** X7.  A server-role session is buried whether or not its in-flight flag
    is set: sitting in the slot its [server.session_num] indexes, and in no
    other, [bury_session] returns, that slot holds [nullptr], the session
    object is deleted and [is_session_ptr_server] on the pointer then
    returns false. *)
Theorem bury_session_server (session : N) (s : Session.t) w :
  session ≠ nullptr →
  sessions (proc w) !! session = Some s →
  Session.role s = kServer →
  (∀ i : nat, session_vec (this w) !! i = Some session
              ↔ i = N.to_nat (SessionMetadata.session_num (Session.server s))) →
  ∃ w',
    bury_session session w = (Ret tt, w')
    ∧ session_vec (this w')
        !! N.to_nat (SessionMetadata.session_num (Session.server s))
      = Some nullptr
    ∧ sessions (proc w') = delete session (sessions (proc w))
    ∧ is_session_ptr_server session w' = (Ret false, w').
Proof.
  intros Hnz Hs Hrole Hslot.
  set (n := N.to_nat (SessionMetadata.session_num (Session.server s))) in *.
  assert (Hnum : N.to_nat (own_session_num s) = n)
    by (unfold own_session_num; by rewrite Hrole).
  assert (Hn : session_vec (this w) !! n = Some session) by (by apply Hslot).
  assert (Hin : session ∈ session_vec (this w))
    by (apply list_elem_of_lookup; eauto).
  assert (Hlt : (n <? length (session_vec (this w)))%nat = true)
    by (apply Nat.ltb_lt; eapply lookup_lt_Some; eauto).
  exists (buried session n w).
  split; [|split; [|split]].
  - rewrite (bury_session_run _ s) by (try assumption; congruence).
    by rewrite Hnum, Hlt.
  - unfold buried. world_simpl. apply list_lookup_insert_eq. by apply Nat.ltb_lt.
  - reflexivity.
  - apply is_session_ptr_server_absent. unfold buried. world_simpl.
    intros Hin'. apply list_elem_of_lookup in Hin' as [j Hj].
    destruct (decide (j = n)) as [->|Hne].
    + rewrite list_lookup_insert_eq in Hj by (by apply Nat.ltb_lt). congruence.
    + rewrite list_lookup_insert_ne in Hj by congruence.
      apply Hslot in Hj. contradiction.
Qed.

(** X8.  [bury_session] stops at an [assert], with nothing changed, when it
    is given [nullptr] and when it is given a live session that is in no slot
    of this endpoint's table, whatever its role. *)
Theorem bury_session_rejects (session : N) w :
  (session = nullptr → bury_session session w = (Abort, w))
  ∧ (∀ s, session ≠ nullptr →
          sessions (proc w) !! session = Some s →
          session ∉ session_vec (this w) →
          bury_session session w = (Abort, w)).
Proof.
  split.
  - intros ->. apply bury_session_null.
  - intros s. apply bury_session_absent.
Qed.


(** What the two predicates answer, from the table and the session store. *)
Lemma is_session_ptr_client_outcome (p : N) w :
  fst (is_session_ptr_client p w)
  = if p =? nullptr then Ret false
    else if bool_decide (p ∈ session_vec (this w))
         then match sessions (proc w) !! p with
              | Some s => Ret (bool_decide (Session.role s = kClient))
              | None => Undef
              end
         else Ret false.
Proof.
  destruct (N.eqb_spec p nullptr) as [->|Hnz]; [reflexivity|].
  case_bool_decide as Hin.
  - destruct (sessions (proc w) !! p) as [s|] eqn:Hs.
    + by rewrite (is_session_ptr_client_live _ s).
    + destruct (std_find_Some _ _ Hin) as [i Hi]. apply N.eqb_neq in Hnz.
      unfold is_session_ptr_client, deref_session. rewrite Hnz.
      comp_simpl. by rewrite Hi, Hs.
  - by rewrite is_session_ptr_client_absent.
Qed.

Lemma is_session_ptr_server_outcome (p : N) w :
  fst (is_session_ptr_server p w)
  = if p =? nullptr then Ret false
    else if bool_decide (p ∈ session_vec (this w))
         then match sessions (proc w) !! p with
              | Some s => Ret (bool_decide (Session.role s = kServer))
              | None => Undef
              end
         else Ret false.
Proof.
  destruct (N.eqb_spec p nullptr) as [->|Hnz]; [reflexivity|].
  case_bool_decide as Hin.
  - destruct (sessions (proc w) !! p) as [s|] eqn:Hs.
    + by rewrite (is_session_ptr_server_live _ s).
    + destruct (std_find_Some _ _ Hin) as [i Hi]. apply N.eqb_neq in Hnz.
      unfold is_session_ptr_server, deref_session. rewrite Hnz.
      comp_simpl. by rewrite Hi, Hs.
  - by rewrite is_session_ptr_server_absent.
Qed.

(** Clearing a slot keeps every pointer that was not in it. *)
Lemma elem_of_cleared (v : list N) (i : nat) (p : N) :
  p ≠ nullptr →
  v !! i ≠ Some p →
  p ∈ <[i := nullptr]> v ↔ p ∈ v.
Proof.
  intros Hnz Hslot. rewrite !list_elem_of_lookup. split; intros [j Hj].
  - destruct (decide (j = i)) as [->|Hne].
    + destruct (decide (i < length v)%nat) as [Hlt|Hge].
      * rewrite list_lookup_insert_eq in Hj by exact Hlt. congruence.
      * rewrite list_insert_ge in Hj by lia. eauto.
    + rewrite list_lookup_insert_ne in Hj by congruence. eauto.
  - exists j. rewrite list_lookup_insert_ne; [exact Hj | congruence].
Qed.

(** X10.  A burial that returns touches one slot and one session: the table
    keeps its length, every other slot holds what it held, every other
    session object is as before, and for every other pointer that was not in
    the cleared slot [is_session_ptr_client] and [is_session_ptr_server]
    answer as before.  The hook, the Nexus, the transport and the allocator
    are not touched. *)
Theorem bury_session_frame (session : N) w w' :
  bury_session session w = (Ret tt, w') →
  ∃ s,
    sessions (proc w) !! session = Some s
    ∧ length (session_vec (this w')) = length (session_vec (this w))
    ∧ (∀ j : nat, j ≠ N.to_nat (own_session_num s) →
                  session_vec (this w') !! j = session_vec (this w) !! j)
    ∧ (∀ p, p ≠ session → sessions (proc w') !! p = sessions (proc w) !! p)
    ∧ (∀ p, p ≠ session →
            session_vec (this w) !! N.to_nat (own_session_num s) ≠ Some p →
            fst (is_session_ptr_client p w') = fst (is_session_ptr_client p w)
            ∧ fst (is_session_ptr_server p w') = fst (is_session_ptr_server p w))
    ∧ sm_hook (this w') = sm_hook (this w)
    ∧ nexuses (proc w') = nexuses (proc w)
    ∧ transports (proc w') = transports (proc w)
    ∧ allocators (proc w') = allocators (proc w).
Proof.
  intros Hrun.
  destruct (bury_session_inv _ _ _ Hrun) as (s & Hnz & Hs & Hin & Hfl & Hlt & ->).
  exists s. unfold buried. world_simpl.
  split; [exact Hs|]. split; [apply length_insert|].
  split; [intros j Hj; by rewrite list_lookup_insert_ne|].
  split; [intros p Hp; by rewrite lookup_delete_ne|].
  split; [|repeat split].
  intros p Hp Hslot.
  rewrite !is_session_ptr_client_outcome, !is_session_ptr_server_outcome.
  world_simpl.
  destruct (N.eqb_spec p nullptr) as [E|Hpz]; [split; reflexivity|].
  rewrite (lookup_delete_ne (sessions (proc w)) session p) by congruence.
  assert (Hiff := elem_of_cleared (session_vec (this w))
                    (N.to_nat (own_session_num s)) p Hpz Hslot).
  destruct (bool_decide_reflect
              (p ∈ <[N.to_nat (own_session_num s) := nullptr]> (session_vec (this w))))
    as [Hin'|Hout'].
  - rewrite bool_decide_eq_true_2 by (by apply Hiff). split; reflexivity.
  - rewrite bool_decide_eq_false_2 by (intros ?; apply Hout'; by apply Hiff).
    split; reflexivity.
Qed.

(** X11.  A session is buried once: after a burial that returned, a second
    [bury_session] on the same pointer passes the null check and then reads
    the role of the deleted object, which is undefined behaviour. *)
Theorem bury_session_twice (session : N) w w' :
  bury_session session w = (Ret tt, w') →
  bury_session session w' = (Undef, w').
Proof.
  intros Hrun.
  destruct (bury_session_inv _ _ _ Hrun) as (s & Hnz & Hs & Hin & Hfl & Hlt & ->).
  apply bury_session_dangling; [exact Hnz|].
  unfold buried. world_simpl. apply lookup_delete_eq.
Qed.

(** ** The session-management drain, continued *)

Lemma for_each_app {S A} (f : A → Comp S unit) (l1 l2 : list A) (s : S) :
  for_each f (l1 ++ l2) s
  = match for_each f l1 s with
    | (Ret _, s1) => for_each f l2 s1
    | r => r
    end.
Proof.
  revert s. induction l1 as [|x l1 IH]; intros s; [reflexivity|].
  cbn [app for_each]. unfold mbind, Comp_mbind, comp_bind.
  destruct (f x s) as [[[]|e| |] s1]; try reflexivity. apply IH.
Qed.




(** A drain that returns has run the loop to its end and then emptied the
    hook. *)
Lemma handle_session_management_inv w w' :
  handle_session_management w = (Ret tt, w') →
  0 < session_mgmt_ev_counter (sm_hook (this w))
  ∧ ∃ w2,
      for_each handle_sm_pkt (session_mgmt_pkt_list (sm_hook (this w))) (locked w)
      = (Ret tt, w2)
      ∧ w' = with_this (λ r, set_sm_hook
                               (mkHook (hook_app_tid (sm_hook r)) 0 false []) r) w2.
Proof.
  unfold handle_session_management.
  unfold mbind at 1, Comp_mbind, comp_bind at 1, member at 1, gets.
  unfold mbind at 1, comp_bind at 1, assert.
  destruct (0 <? session_mgmt_ev_counter (sm_hook (this w))) eqn:Hcnt;
    [|discriminate].
  unfold mret at 1, Comp_mret, comp_ret.
  unfold mbind at 1, comp_bind at 1, update_hook at 1, modify.
  unfold mbind at 1, comp_bind at 1, member at 1, gets.
  unfold mbind at 1, comp_bind at 1.
  fold (locked w).
  change (session_mgmt_pkt_list (sm_hook (this (locked w))))
    with (session_mgmt_pkt_list (sm_hook (this w))).
  destruct (for_each handle_sm_pkt _ (locked w)) as [[[]|e| |] w2];
    try discriminate.
  unfold update_hook. comp_unfold. intros [= <-].
  split; [by apply N.ltb_lt|]. exists w2. split; reflexivity.
Qed.

(** X12.  The drain is edge-triggered.  After a call of
    [handle_session_management] that returned, the pending list is empty,
    the counter is 0 and the mutex is released; a second call, with nothing
    appended in between, stops at the first [assert] and changes nothing. *)
Theorem drain_twice w w' :
  handle_session_management w = (Ret tt, w') →
  session_mgmt_pkt_list (sm_hook (this w')) = []
  ∧ session_mgmt_ev_counter (sm_hook (this w')) = 0
  ∧ session_mgmt_mutex (sm_hook (this w')) = false
  ∧ handle_session_management w' = (Abort, w').
Proof.
  intros Hrun.
  destruct (handle_session_management_inv _ _ Hrun) as (_ & w2 & _ & ->).
  repeat split.
Qed.

(** X13.  The loop stops at the first packet that reports this endpoint as
    its author.  The packets before it were handled and freed, in order, and
    the session table is what their handlers made of it; that packet and the
    ones after it were neither handled nor freed, and the hook still holds
    the whole list and its counter, with the mutex taken. *)
Theorem drain_stops_at_first_offender w (n : Nexus)
    (pre post : list SessionMgmtPkt.t) (p : SessionMgmtPkt.t) :
  0 < session_mgmt_ev_counter (sm_hook (this w)) →
  nexuses (proc w) !! nexus (this w) = Some n →
  session_mgmt_pkt_list (sm_hook (this w)) = pre ++ p :: post →
  (∀ q, q ∈ pre →
        ¬ (SessionMetadata.hostname (requester q) = nexus_hostname n
           ∧ SessionMetadata.app_tid (requester q) = app_tid (this w))) →
  SessionMetadata.hostname (requester p) = nexus_hostname n →
  SessionMetadata.app_tid (requester p) = app_tid (this w) →
  ∃ w',
    handle_session_management w = (Abort, w')
    ∧ trace (proc w') = trace (proc w) ++ drain_events pre
    ∧ table w' = drain_table pre (table w)
    ∧ sm_hook (this w') = set_hook_mutex true (sm_hook (this w)).
Proof.
  intros Hcnt Hn Hl Hpre Hhost Htid. apply N.ltb_lt in Hcnt.
  unfold handle_session_management.
  unfold mbind at 1, Comp_mbind, comp_bind at 1, member at 1, gets.
  unfold mbind at 1, comp_bind at 1, assert. rewrite Hcnt.
  unfold mret at 1, Comp_mret, comp_ret.
  unfold mbind at 1, comp_bind at 1, update_hook at 1, modify.
  unfold mbind at 1, comp_bind at 1, member at 1, gets.
  unfold mbind at 1, comp_bind at 1.
  fold (locked w).
  change (session_mgmt_pkt_list (sm_hook (this (locked w))))
    with (session_mgmt_pkt_list (sm_hook (this w))).
  rewrite Hl, for_each_app.
  rewrite (drain_loop_ok pre n (locked w)) by assumption.
  destruct (after_pkts_frame pre (locked w)) as (F1 & F2 & F3 & F4 & F5 & F6).
  cbn [for_each]. unfold mbind, Comp_mbind, comp_bind.
  rewrite (handle_sm_pkt_guard p n (after_pkts pre (locked w)))
    by (rewrite F1, F4; exact Hn).
  rewrite F2.
  change (app_tid (this (locked w))) with (app_tid (this w)).
  rewrite (proj2 (names_this_rpc_true (requester p) n (app_tid (this w))))
    by auto.
  eexists. split; [reflexivity|].
  rewrite F5, F6, F3. repeat split.
Qed.


(** ** The name of an endpoint *)

Lemma list_ascii_of_string_app (s1 s2 : string) :
  String.list_ascii_of_string (s1 +:+ s2)
  = String.list_ascii_of_string s1 ++ String.list_ascii_of_string s2.
Proof. induction s1 as [|c s1 IH]; simpl; [reflexivity | by rewrite IH]. Qed.

Lemma list_ascii_of_string_inj (s1 s2 : string) :
  String.list_ascii_of_string s1 = String.list_ascii_of_string s2 → s1 = s2.
Proof.
  intros H. rewrite <- (String.string_of_list_ascii_of_string s1),
              <- (String.string_of_list_ascii_of_string s2). by rewrite H.
Qed.

(** The decimal writing of a number has no comma. *)
Lemma pretty_N_go_no_comma (x : N) (s : string) :
  ","%char ∉ String.list_ascii_of_string s →
  ","%char ∉ String.list_ascii_of_string (pretty_N_go x s).
Proof.
  revert s. induction (N.lt_wf_0 x) as [x _ IH]; intros s Hs.
  destruct (decide (x = 0)) as [->|Hx]; [by rewrite pretty_N_go_0|].
  rewrite pretty_N_go_step by lia. apply IH.
  - apply N.div_lt; lia.
  - simpl. apply not_elem_of_cons. split; [|exact Hs].
    unfold pretty_N_char. by repeat case_match.
Qed.

Lemma pretty_N_no_comma (x : N) : ","%char ∉ String.list_ascii_of_string (pretty x).
Proof.
  unfold pretty, pretty_N. case_decide.
  - simpl. apply not_elem_of_cons. split; [discriminate | apply not_elem_of_nil].
  - apply pretty_N_go_no_comma. simpl. apply not_elem_of_nil.
Qed.

(** Two lists cut at their first comma. *)
Lemma split_at_first_comma (a a' b b' : list ascii) :
  ","%char ∉ a → ","%char ∉ a' →
  a ++ ","%char :: b = a' ++ ","%char :: b' →
  a = a' ∧ b = b'.
Proof.
  revert a'. induction a as [|c a IH]; intros [|c' a'] Ha Ha' E; simpl in E.
  - by injection E as ->.
  - injection E as <- _. exfalso. apply Ha'. left.
  - injection E as -> _. exfalso. apply Ha. left.
  - injection E as -> E. apply not_elem_of_cons in Ha as [_ Ha].
    apply not_elem_of_cons in Ha' as [_ Ha'].
    destruct (IH a' Ha Ha' E) as [-> ->]. done.
Qed.

(** The bracketed form determines the host name and the number. *)
Lemma bracketed_name_inj (h h' : string) (x x' : N) :
  "[" +:+ h +:+ ", " +:+ pretty x +:+ "]"
  = "[" +:+ h' +:+ ", " +:+ pretty x' +:+ "]" →
  h = h' ∧ x = x'.
Proof.
  intros E. apply (f_equal String.list_ascii_of_string) in E.
  rewrite !list_ascii_of_string_app in E. simpl in E.
  injection E as E. apply (f_equal reverse) in E.
  rewrite ?reverse_app, ?reverse_cons, ?reverse_app, ?reverse_cons,
    ?reverse_nil in E.
  simpl in E. rewrite <- ?app_assoc in E. simpl in E.
  set (d := reverse (String.list_ascii_of_string (pretty x))) in *.
  set (d' := reverse (String.list_ascii_of_string (pretty x'))) in *.
  assert (Hd : ","%char ∉ d)
    by (unfold d; rewrite elem_of_reverse; apply pretty_N_no_comma).
  assert (Hd' : ","%char ∉ d')
    by (unfold d'; rewrite elem_of_reverse; apply pretty_N_no_comma).
  assert (E' : ("]"%char :: d ++ [" "%char]) ++ ","%char :: reverse (String.list_ascii_of_string h)
             = ("]"%char :: d' ++ [" "%char]) ++ ","%char :: reverse (String.list_ascii_of_string h')).
  { simpl. rewrite <- !app_assoc. simpl. exact E. }
  apply split_at_first_comma in E' as [E1 E2].
  - injection E1 as E1. apply app_inv_tail in E1.
    apply (inj reverse) in E1, E2.
    apply list_ascii_of_string_inj in E1, E2.
    split; [exact E2 | by apply (inj pretty)].
  - apply not_elem_of_cons. split; [discriminate|].
    rewrite elem_of_app, list_elem_of_singleton. intros [?|?]; [done | discriminate].
  - apply not_elem_of_cons. split; [discriminate|].
    rewrite elem_of_app, list_elem_of_singleton. intros [?|?]; [done | discriminate].
Qed.

(** X15.  [get_name] returns "[<host name>, <id in decimal>]" for the host
    name of the endpoint's Nexus and its application-thread id, and changes
    nothing.  The name identifies the endpoint: two endpoints have the same
    name exactly when they have the same host name and the same id, also
    when a host name contains a comma or a bracket. *)
Theorem get_name_identifies (w1 w2 : World T R) (n1 n2 : Nexus) :
  nexuses (proc w1) !! nexus (this w1) = Some n1 →
  nexuses (proc w2) !! nexus (this w2) = Some n2 →
  get_name w1
  = (Ret ("[" +:+ nexus_hostname n1 +:+ ", " +:+ pretty (app_tid (this w1))
          +:+ "]"), w1)
  ∧ (fst (get_name w1) = fst (get_name w2)
     ↔ nexus_hostname n1 = nexus_hostname n2
       ∧ app_tid (this w1) = app_tid (this w2)).
Proof.
  intros H1 H2.
  assert (Hname : ∀ (w : World T R) n, nexuses (proc w) !! nexus (this w) = Some n →
            get_name w
            = (Ret ("[" +:+ nexus_hostname n +:+ ", " +:+ pretty (app_tid (this w))
                    +:+ "]"), w)).
  { intros w n Hn. unfold get_name, deref_nexus. comp_unfold. by rewrite Hn. }
  split; [by apply Hname|].
  rewrite (Hname w1 n1 H1), (Hname w2 n2 H2). cbn [fst]. split.
  - intros E. apply bracketed_name_inj. congruence.
  - intros [-> ->]. reflexivity.
Qed.

(** ** Two endpoints in one process *)

(** X16.  Two endpoints constructed one after the other on the same Nexus
    have different application-thread ids, both registered there, and share
    neither transport nor allocator: the second construction allocates its
    own, and the transport and the allocator of the first are as the first
    construction left them. *)
Theorem two_endpoints_are_disjoint (nx : N) (ctx1 tid1 handler1 port1 numa1 : N)
    (ctx2 tid2 handler2 port2 numa2 : N) pr (r1 r2 : Rpc R) pr1 pr2 :
  Rpc_ctor nx ctx1 tid1 handler1 port1 numa1 pr = (Ret r1, pr1) →
  Rpc_ctor nx ctx2 tid2 handler2 port2 numa2 pr1 = (Ret r2, pr2) →
  tid1 ≠ tid2
  ∧ transport r1 ≠ transport r2
  ∧ huge_alloc r1 ≠ huge_alloc r2
  ∧ is_Some (transports pr2 !! transport r2)
  ∧ is_Some (allocators pr2 !! huge_alloc r2)
  ∧ transports pr2 !! transport r1 = transports pr1 !! transport r1
  ∧ is_Some (transports pr1 !! transport r1)
  ∧ allocators pr2 !! huge_alloc r1 = allocators pr1 !! huge_alloc r1
  ∧ is_Some (allocators pr1 !! huge_alloc r1)
  ∧ (∃ n2, nexuses pr2 !! nx = Some n2
           ∧ tid1 ∈ reg_hooks n2 ∧ tid2 ∈ reg_hooks n2).
Proof.
  intros Hret1 Hret2.
  destruct (Rpc_ctor_returns _ _ _ _ _ _ _ _ _ Hret1)
    as (Hu1 & _ & n1 & Hn1 & Hreg1).
  destruct (Rpc_ctor_inv _ _ _ _ _ _ _ _ _ Hret1)
    as (n & tr1 & cs1 & Hu & Hnx & Hn & Htid & Hreg & Hport & Hnuma & Hinit).
  destruct (Rpc_ctor_inv _ _ _ _ _ _ _ _ _ Hret2)
    as (n1' & tr2 & cs2 & Hu' & _ & Hn1' & Htid' & Hreg' & Hport' & Hnuma'
        & Hinit').
  assert (n1' = n1) as -> by congruence.
  rewrite (Rpc_ctor_checked nx ctx1 tid1 handler1 port1 numa1 n pr
             Hu Hnx Hn Htid Hreg Hport Hnuma) in Hret1.
  cbv zeta in Hret1. rewrite Hinit in Hret1. injection Hret1 as <- <-.
  rewrite (Rpc_ctor_checked nx ctx2 tid2 handler2 port2 numa2 n1 _
             Hu' Hnx Hn1' Htid' Hreg' Hport' Hnuma') in Hret2.
  cbv zeta in Hret2. rewrite Hinit' in Hret2. injection Hret2 as <- <-.
  cbn [transport huge_alloc transports allocators nexuses set_nexuses] in *.
  set (t1 := fresh_addr (transports pr)) in *.
  set (a1 := fresh_addr (allocators pr)) in *.
  set (al1 := mkHugeAllocator kInitialHugeAllocSize numa1 t1 cs1) in *.
  destruct (fresh_addr_spec (<[t1 := tr1]> (transports pr))) as [_ Ht2].
  destruct (fresh_addr_spec (<[a1 := al1]> (allocators pr))) as [_ Ha2].
  set (t2 := fresh_addr (<[t1 := tr1]> (transports pr))) in *.
  set (a2 := fresh_addr (<[a1 := al1]> (allocators pr))) in *.
  assert (Ht12 : t1 ≠ t2).
  { intros E. rewrite <- E, lookup_insert_eq in Ht2. discriminate. }
  assert (Ha12 : a1 ≠ a2).
  { intros E. rewrite <- E, lookup_insert_eq in Ha2. discriminate. }
  split; [intros ->; contradiction|].
  split; [exact Ht12|]. split; [exact Ha12|].
  rewrite !lookup_insert_eq.
  rewrite (lookup_insert_ne _ t2 t1) by congruence.
  rewrite (lookup_insert_ne _ a2 a1) by congruence.
  rewrite !lookup_insert_eq.
  repeat (split; [eauto|]).
  exists (Nexus_register_hook n1 tid2). split; [reflexivity|].
  unfold Nexus_register_hook. cbn [reg_hooks]. set_solver.
Qed.

End Further.

(** * The endpoint on the stand-ins *)

#[local] Existing Instance StandIn.constants.
#[local] Existing Instance StandIn.good_transport.
#[local] Existing Instance StandIn.lcg.
#[local] Existing Instance StandIn.handlers.

(** The constructor run by root with valid arguments: [StandIn.live_rpc] and
    [StandIn.live_proc] are what it builds, up to the record of events. *)
Example ctor_on_stand_ins :
  Rpc_ctor 16 0 3 0 0 0 StandIn.root_proc
  = (Ret (StandIn.live_rpc [] [] 0),
     add_events [EvNewTransport 1; EvNewHugeAlloc 1] (StandIn.live_proc ∅)).
Proof. vm_compute. reflexivity. Qed.

(** C1.  With a transport whose second phase throws a [std::runtime_error]
    after taking a chunk, the constructor throws that error on and deletes
    the allocator, whose two chunks are deregistered; the transport object it
    created at address 1 stays allocated, and nothing deletes it. *)
Theorem ctor_init_failure_leaks_transport :
  Rpc_ctor (TI := StandIn.failing_transport) 16 0 3 0 0 0 StandIn.root_proc
  = (Throw (runtime_error "Failed to allocate ring"),
     mkProc 0 {[ 16 := mkNexus "akalia" ∅ ]} {[ 1 := 0 ]} ∅ ∅
            [EvNewTransport 1; EvNewHugeAlloc 1; EvDeregMr 1 1; EvDeregMr 1 2;
             EvDeleteHugeAlloc 1]).
Proof. vm_compute. reflexivity. Qed.

(** An ordinary user constructs an endpoint with valid arguments. *)
Lemma ctor_without_root_witness :
  uid StandIn.user_proc ≠ 0
  ∧ Rpc_ctor 16 0 3 0 0 0 StandIn.user_proc
    = (Throw (runtime_error "eRPC Rpc: You need to be root to use eRPC"),
       StandIn.user_proc).
Proof.
  assert (H : uid StandIn.user_proc ≠ 0) by (simpl; lia).
  split; [exact H | apply (ctor_without_root 16 0 3 0 0 0 StandIn.user_proc H)].
Defined.

(** C3.  The destructor on an endpoint whose slot 1 holds a live session:
    the allocator's chunks are deregistered and the allocator deleted, then
    the transport is deleted; the session at address 32 is still allocated
    afterwards, no [delete] of it is recorded. *)
Theorem dtor_leaves_sessions_allocated :
  Rpc_dtor (mkWorld (StandIn.live_rpc [nullptr; 32] [] 0)
                    (StandIn.live_proc {[ 32 := StandIn.client_session false ]}))
  = (Ret tt,
     mkWorld (StandIn.live_rpc [nullptr; 32] [] 0)
             (mkProc 0 {[ 16 := mkNexus "akalia" {[ 3 ]} ]} ∅ ∅
                     {[ 32 := StandIn.client_session false ]}
                     [EvDeregMr 1 1; EvDeregMr 1 2; EvDeleteHugeAlloc 1;
                      EvDeleteTransport 1])).
Proof. vm_compute. reflexivity. Qed.

(** C4 as stated fails: with a nonzero counter and one pending packet that
    reports this endpoint as its author, the drain does not end with an empty
    list and a counter of 0; it stops at the [assert]. *)
Lemma drain_stops_on_spoofed_packet :
  let w := mkWorld (StandIn.live_rpc [] [StandIn.spoofed_req] 1)
                   (StandIn.live_proc ∅) in
  0 < session_mgmt_ev_counter (sm_hook (this w))
  ∧ fst (handle_session_management w) = Abort
  ∧ ¬ (∃ w', handle_session_management w = (Ret tt, w')
             ∧ session_mgmt_pkt_list (sm_hook (this w')) = []
             ∧ session_mgmt_ev_counter (sm_hook (this w')) = 0).
Proof.
  intros w. split; [reflexivity|].
  assert (H : fst (handle_session_management w) = Abort)
    by (vm_compute; reflexivity).
  split; [exact H|].
  intros (w' & Hrun & _). rewrite Hrun in H. discriminate.
Qed.

(** A drain of three packets from another host, with a counter of 2. *)
Lemma drain_fifo_witness :
  let q := [StandIn.connect_req; StandIn.disconnect_resp; StandIn.connect_req] in
  let w := mkWorld (StandIn.live_rpc [32] q 2)
                   (StandIn.live_proc {[ 32 := StandIn.client_session false ]}) in
  ∃ w',
    handle_session_management w = (Ret tt, w')
    ∧ trace (proc w')
      = [EvHandler kConnectReq StandIn.connect_req; EvFree StandIn.connect_req;
         EvHandler kDisconnectResp StandIn.disconnect_resp;
         EvFree StandIn.disconnect_resp;
         EvHandler kConnectReq StandIn.connect_req; EvFree StandIn.connect_req]
    ∧ table w' = mkSessionTable [nullptr; nullptr; nullptr]
                                {[ 32 := StandIn.client_session false ]}
    ∧ session_mgmt_pkt_list (sm_hook (this w')) = []
    ∧ session_mgmt_ev_counter (sm_hook (this w')) = 0
    ∧ session_mgmt_mutex (sm_hook (this w')) = false.
Proof.
  intros q w.
  assert (Hcnt : 0 < session_mgmt_ev_counter (sm_hook (this w)))
    by (simpl; lia).
  assert (Hn : nexuses (proc w) !! nexus (this w) = Some (mkNexus "akalia" {[ 3 ]}))
    by (vm_compute; reflexivity).
  assert (Hok : ∀ p, p ∈ session_mgmt_pkt_list (sm_hook (this w)) →
            ¬ (SessionMetadata.hostname (requester p) = "akalia"
               ∧ SessionMetadata.app_tid (requester p) = app_tid (this w))).
  { intros p Hp [Hhost Htid]. simpl in Hp.
    apply elem_of_cons in Hp as [->|Hp]; [discriminate Hhost|].
    apply elem_of_cons in Hp as [->|Hp]; [discriminate Hhost|].
    apply elem_of_cons in Hp as [->|Hp]; [discriminate Hhost|].
    by apply elem_of_nil in Hp. }
  exact (proj2 (drain_fifo w (mkNexus "akalia" {[ 3 ]}) Hn Hok) Hcnt).
Defined.

(** A drain whose second packet reports ("akalia", 3), this endpoint. *)
Lemma drain_self_addressed_is_fatal_witness :
  let q := [StandIn.connect_req; StandIn.spoofed_req; StandIn.disconnect_resp] in
  let w := mkWorld (StandIn.live_rpc [] q 3) (StandIn.live_proc ∅) in
  ∃ w' evs,
    handle_session_management w = (Abort, w')
    ∧ trace (proc w') = trace (proc w) ++ evs
    ∧ (∀ k, EvHandler k StandIn.spoofed_req ∉ evs)
    ∧ EvFree StandIn.spoofed_req ∉ evs.
Proof.
  intros q w.
  apply (drain_self_addressed_is_fatal w (mkNexus "akalia" {[ 3 ]})
           StandIn.spoofed_req).
  - vm_compute. reflexivity.
  - simpl. apply list_elem_of_further, list_elem_of_here.
  - reflexivity.
  - reflexivity.
Defined.

(** Burying the client session of slot 1, in flight and not in flight. *)
Lemma bury_session_client_witness :
  let busy := mkWorld (StandIn.live_rpc [nullptr; 32] [] 0)
                      (StandIn.live_proc {[ 32 := StandIn.client_session true ]}) in
  let idle := mkWorld (StandIn.live_rpc [nullptr; 32] [] 0)
                      (StandIn.live_proc {[ 32 := StandIn.client_session false ]}) in
  fst (bury_session 32 busy) = Abort
  ∧ ∃ w',
      bury_session 32 idle = (Ret tt, w')
      ∧ session_vec (this w') !! 1%nat = Some nullptr
      ∧ sessions (proc w') = delete 32 (sessions (proc idle))
      ∧ is_session_ptr_client 32 w' = (Ret false, w').
Proof.
  intros busy idle.
  assert (Hnz : 32 ≠ nullptr) by (unfold nullptr; lia).
  split.
  - apply (bury_session_client 32 (StandIn.client_session true) busy Hnz).
    + vm_compute. reflexivity.
    + reflexivity.
    + reflexivity.
  - apply (bury_session_client 32 (StandIn.client_session false) idle Hnz).
    + vm_compute. reflexivity.
    + reflexivity.
    + reflexivity.
    + intros [|[|i]]; simpl; split; intros H; try reflexivity;
        discriminate H.
Defined.

(** C7 as stated fails: in a process that is not run by root, a null Nexus
    pointer does not make the constructor throw [std::invalid_argument]; the
    check of the user id comes first and throws [std::runtime_error]. *)
Lemma ctor_null_nexus_without_root :
  Rpc_ctor nullptr 0 3 0 0 0 StandIn.user_proc
  = (Throw (runtime_error "eRPC Rpc: You need to be root to use eRPC"),
     StandIn.user_proc)
  ∧ ¬ (∃ what pr', Rpc_ctor nullptr 0 3 0 0 0 StandIn.user_proc
                   = (Throw (invalid_argument what), pr')).
Proof.
  assert (H : Rpc_ctor nullptr 0 3 0 0 0 StandIn.user_proc
              = (Throw (runtime_error "eRPC Rpc: You need to be root to use eRPC"),
                 StandIn.user_proc)) by (vm_compute; reflexivity).
  split; [exact H|].
  intros (what & pr' & Hrun). rewrite Hrun in H. discriminate.
Qed.

(** Root constructs endpoints with one invalid argument each, with two, and
    a second endpoint with the application-thread id of a first. *)
Lemma ctor_invalid_argument_witness :
  Rpc_ctor nullptr 0 3 0 0 0 StandIn.root_proc
  = (Throw (invalid_argument "eRPC Rpc: Invalid nexus"), StandIn.root_proc)
  ∧ Rpc_ctor 16 0 255 0 0 0 StandIn.root_proc
    = (Throw (invalid_argument "eRPC Rpc: Invalid app_tid"), StandIn.root_proc)
  ∧ Rpc_ctor 16 0 3 0 4 0 StandIn.root_proc
    = (Throw (invalid_argument "eRPC Rpc: Invalid physical port"), StandIn.root_proc)
  ∧ Rpc_ctor 16 0 3 0 0 8 StandIn.root_proc
    = (Throw (invalid_argument "eRPC Rpc: Invalid NUMA node"), StandIn.root_proc)
  ∧ (∃ what, Rpc_ctor 16 0 3 0 9 9 StandIn.root_proc
             = (Throw (invalid_argument what), StandIn.root_proc))
  ∧ Rpc_ctor 16 0 3 0 1 1
      (add_events [EvNewTransport 1; EvNewHugeAlloc 1] (StandIn.live_proc ∅))
    = (Throw (invalid_argument "eRPC Rpc: Invalid app_tid"),
       add_events [EvNewTransport 1; EvNewHugeAlloc 1] (StandIn.live_proc ∅)).
Proof.
  assert (Hu : uid StandIn.root_proc = 0) by reflexivity.
  assert (Hn : nexuses StandIn.root_proc !! 16 = Some (mkNexus "akalia" ∅))
    by (vm_compute; reflexivity).
  assert (Hnz : 16 ≠ nullptr) by (unfold nullptr; lia).
  assert (Hun : ∃ n, nexuses StandIn.root_proc !! 16 = Some n ∧ 3 ∉ reg_hooks n)
    by (eexists; split; [exact Hn | simpl; apply not_elem_of_empty]).
  assert (Htid : 3 ≠ kInvalidAppTid) by (simpl; lia).
  split; [|split; [|split; [|split; [|split]]]].
  - apply (ctor_invalid_argument nullptr 0 3 0 0 0 StandIn.root_proc Hu).
    reflexivity.
  - apply (ctor_invalid_argument 16 0 255 0 0 0 StandIn.root_proc Hu).
    + exact Hnz.
    + left. reflexivity.
  - apply (ctor_invalid_argument 16 0 3 0 4 0 StandIn.root_proc Hu);
      [exact Hnz | exact Htid | exact Hun | simpl; lia].
  - apply (ctor_invalid_argument 16 0 3 0 0 8 StandIn.root_proc Hu);
      [exact Hnz | exact Htid | exact Hun | simpl; lia | simpl; lia].
  - apply (ctor_invalid_argument 16 0 3 0 9 9 StandIn.root_proc Hu).
    + right. rewrite Hn. eauto.
    + do 3 right. left. simpl. lia.
  - destruct (ctor_invalid_argument 16 0 3 0 0 0 StandIn.root_proc Hu)
      as (_ & _ & _ & _ & _ & Hsecond).
    exact (Hsecond _ _ 0 0 1 1 ctor_on_stand_ins).
Defined.

(** The two predicates on [nullptr], on a pointer that is in no slot and on
    the client session of slot 1. *)
Lemma is_session_ptr_spec_witness :
  let w := mkWorld (StandIn.live_rpc [nullptr; 32] [] 0)
                   (StandIn.live_proc {[ 32 := StandIn.client_session false ]}) in
  is_session_ptr_client nullptr w = (Ret false, w)
  ∧ is_session_ptr_server nullptr w = (Ret false, w)
  ∧ is_session_ptr_client 48 w = (Ret false, w)
  ∧ is_session_ptr_server 48 w = (Ret false, w)
  ∧ is_session_ptr_client 32 w = (Ret true, w)
  ∧ is_session_ptr_server 32 w = (Ret false, w).
Proof.
  intros w.
  destruct (is_session_ptr_spec nullptr w) as [Hnull _].
  destruct (is_session_ptr_spec 48 w) as (_ & Habsent & _).
  destruct (is_session_ptr_spec 32 w) as (_ & _ & Hlive).
  destruct (Hnull eq_refl) as [H1 H2].
  destruct Habsent as [H3 H4].
  { simpl. intros Hin.
    apply elem_of_cons in Hin as [Hin|Hin]; [discriminate Hin|].
    apply elem_of_cons in Hin as [Hin|Hin]; [discriminate Hin|].
    by apply elem_of_nil in Hin. }
  destruct (Hlive (StandIn.client_session false)) as (_ & H5 & H6 & _).
  { unfold nullptr; lia. }
  { simpl. apply list_elem_of_further, list_elem_of_here. }
  { vm_compute. reflexivity. }
  exact (conj H1 (conj H2 (conj H3 (conj H4
           (conj (H6 eq_refl) (H5 ltac:(discriminate))))))).
Defined.

(** * The further properties on the stand-ins *)

(** Root constructs an endpoint with valid arguments on a transport whose
    second phase returns. *)
Lemma ctor_success_witness :
  ∃ (r : Rpc N) pr1,
    Rpc_ctor 16 0 3 0 0 0 StandIn.root_proc = (Ret r, pr1)
    ∧ session_vec r = []
    ∧ sm_hook r = mkHook 3 0 false []
    ∧ transport r ≠ nullptr
    ∧ huge_alloc r ≠ nullptr
    ∧ nexuses pr1
      = <[16 := Nexus_register_hook (mkNexus "akalia" ∅) 3]>
          (nexuses StandIn.root_proc).
Proof.
  assert (Hu : uid StandIn.root_proc = 0) by reflexivity.
  assert (Hnz : 16 ≠ nullptr) by (unfold nullptr; lia).
  assert (Hn : nexuses StandIn.root_proc !! 16 = Some (mkNexus "akalia" ∅))
    by (vm_compute; reflexivity).
  assert (Htid : 3 ≠ kInvalidAppTid) by (simpl; lia).
  assert (Hreg : 3 ∉ reg_hooks (mkNexus "akalia" ∅))
    by (simpl; apply not_elem_of_empty).
  assert (Hport : 0 < kMaxPhyPorts) by (simpl; lia).
  assert (Hnuma : 0 < kMaxNumaNodes) by (simpl; lia).
  assert (Hinit :
    init_hugepage_structures (Transport_new 3 0)
      (mkHugeAllocator kInitialHugeAllocSize 0
         (fresh_addr (transports StandIn.root_proc))
         (HugeAllocator_reserve kInitialHugeAllocSize 0))
    = (Ret tt, (1, [1; 2]))) by (vm_compute; reflexivity).
  destruct (ctor_success 16 0 3 0 0 0 (mkNexus "akalia" ∅) StandIn.root_proc
              1 [1; 2] Hu Hnz Hn Htid Hreg Hport Hnuma Hinit)
    as (r & pr1 & Hrun & _ & Hv & Hh & Ht & _ & _ & Ha & _ & _ & Hnx & _).
  exists r, pr1.
  exact (conj Hrun (conj Hv (conj Hh (conj Ht (conj Ha Hnx))))).
Defined.

(** The construction of [ctor_on_stand_ins] returned. *)
Lemma ctor_returns_only_if_valid_witness :
  uid StandIn.root_proc = 0
  ∧ 16 ≠ nullptr
  ∧ 3 ≠ kInvalidAppTid
  ∧ (∃ n, nexuses StandIn.root_proc !! 16 = Some n ∧ 3 ∉ reg_hooks n)
  ∧ 0 < kMaxPhyPorts
  ∧ 0 < kMaxNumaNodes
  ∧ fst (init_hugepage_structures (Transport_new 3 0)
           (mkHugeAllocator kInitialHugeAllocSize 0
              (fresh_addr (transports StandIn.root_proc))
              (HugeAllocator_reserve kInitialHugeAllocSize 0)))
    = Ret tt.
Proof.
  exact (ctor_returns_only_if_valid 16 0 3 0 0 0 StandIn.root_proc
           (StandIn.live_rpc [] [] 0) _ ctor_on_stand_ins).
Defined.

(** The second phase of the transport throws [std::invalid_argument]. *)
Lemma ctor_uncaught_exception_witness :
  ∃ pr',
    Rpc_ctor (TI := StandIn.misconfigured_transport) 16 0 3 0 0 0
      StandIn.root_proc
    = (Throw (invalid_argument "Invalid queue depth"), pr')
    ∧ transports pr' !! 1 = Some 0
    ∧ allocators pr' !! 1 = Some (mkHugeAllocator kInitialHugeAllocSize 0 1 [1; 2])
    ∧ trace pr' = [EvNewTransport 1; EvNewHugeAlloc 1]
    ∧ nexuses pr' = nexuses StandIn.root_proc.
Proof.
  assert (Hu : uid StandIn.root_proc = 0) by reflexivity.
  assert (Hnz : 16 ≠ nullptr) by (unfold nullptr; lia).
  assert (Hn : nexuses StandIn.root_proc !! 16 = Some (mkNexus "akalia" ∅))
    by (vm_compute; reflexivity).
  assert (Htid : 3 ≠ kInvalidAppTid) by (simpl; lia).
  assert (Hreg : 3 ∉ reg_hooks (mkNexus "akalia" ∅))
    by (simpl; apply not_elem_of_empty).
  assert (Hport : 0 < kMaxPhyPorts) by (simpl; lia).
  assert (Hnuma : 0 < kMaxNumaNodes) by (simpl; lia).
  assert (He : ∀ what, invalid_argument "Invalid queue depth" ≠ runtime_error what)
    by (intros what; discriminate).
  assert (Hinit :
    init_hugepage_structures (TransportIface := StandIn.misconfigured_transport)
      (Transport_new (TransportIface := StandIn.misconfigured_transport) 3 0)
      (mkHugeAllocator kInitialHugeAllocSize 0
         (fresh_addr (transports StandIn.root_proc))
         (HugeAllocator_reserve (TransportIface := StandIn.misconfigured_transport)
            kInitialHugeAllocSize 0))
    = (Throw (invalid_argument "Invalid queue depth"), (0, [1; 2])))
    by (vm_compute; reflexivity).
  exact (ctor_uncaught_exception (TI := StandIn.misconfigured_transport)
           16 0 3 0 0 0 (mkNexus "akalia" ∅) StandIn.root_proc
           (invalid_argument "Invalid queue depth") 0 [1; 2]
           Hu Hnz Hn Htid Hreg Hport Hnuma He Hinit).
Defined.



(** An endpoint with a server session in slot 0, at address 48 and in
    flight, and a client session in slot 1, at address 32. *)
Lemma bury_session_server_witness :
  let w := mkWorld (StandIn.live_rpc [48; 32] [] 0)
             (StandIn.live_proc {[ 32 := StandIn.client_session false;
                                   48 := StandIn.server_session true ]}) in
  ∃ w',
    bury_session 48 w = (Ret tt, w')
    ∧ session_vec (this w') !! 0%nat = Some nullptr
    ∧ sessions (proc w') = delete 48 (sessions (proc w))
    ∧ is_session_ptr_server 48 w' = (Ret false, w').
Proof.
  intros w.
  assert (Hnz : 48 ≠ nullptr) by (unfold nullptr; lia).
  assert (Hs : sessions (proc w) !! 48 = Some (StandIn.server_session true))
    by (vm_compute; reflexivity).
  assert (Hrole : Session.role (StandIn.server_session true) = kServer)
    by reflexivity.
  assert (Hslot : ∀ i : nat, session_vec (this w) !! i = Some 48
            ↔ i = N.to_nat (SessionMetadata.session_num
                              (Session.server (StandIn.server_session true)))).
  { intros [|[|i]]; simpl; split; intros H; try reflexivity; discriminate H. }
  exact (bury_session_server 48 (StandIn.server_session true) w
           Hnz Hs Hrole Hslot).
Defined.

(** [nullptr], and a live session that is in no slot. *)
Lemma bury_session_rejects_witness :
  let w := mkWorld (StandIn.live_rpc [nullptr] [] 0)
             (StandIn.live_proc {[ 32 := StandIn.client_session false ]}) in
  bury_session nullptr w = (Abort, w) ∧ bury_session 32 w = (Abort, w).
Proof.
  intros w.
  assert (Hnz : 32 ≠ nullptr) by (unfold nullptr; lia).
  assert (Hs : sessions (proc w) !! 32 = Some (StandIn.client_session false))
    by (vm_compute; reflexivity).
  assert (Hout : 32 ∉ session_vec (this w)).
  { simpl. intros Hin.
    apply elem_of_cons in Hin as [Hin|Hin]; [discriminate Hin|].
    by apply elem_of_nil in Hin. }
  exact (conj (proj1 (bury_session_rejects nullptr w) eq_refl)
              (proj2 (bury_session_rejects 32 w) _ Hnz Hs Hout)).
Defined.


(** The server session of slot 0 is buried; the client session of slot 1 is
    looked at before and after. *)
Lemma bury_session_frame_witness :
  let w := mkWorld (StandIn.live_rpc [48; 32] [] 0)
             (StandIn.live_proc {[ 32 := StandIn.client_session false;
                                   48 := StandIn.server_session true ]}) in
  let w' := buried 48 0 w in
  length (session_vec (this w')) = length (session_vec (this w))
  ∧ fst (is_session_ptr_client 32 w') = fst (is_session_ptr_client 32 w)
  ∧ fst (is_session_ptr_server 32 w') = fst (is_session_ptr_server 32 w)
  ∧ sessions (proc w') !! 32 = sessions (proc w) !! 32.
Proof.
  intros w w'.
  assert (Hrun : bury_session 48 w = (Ret tt, w')) by (vm_compute; reflexivity).
  destruct (bury_session_frame 48 w w' Hrun)
    as (s & Hs & Hlen & _ & Hother & Hptr & _).
  assert (Hs' : sessions (proc w) !! 48 = Some (StandIn.server_session true))
    by (vm_compute; reflexivity).
  assert (s = StandIn.server_session true) as -> by congruence.
  assert (Hne : 32 ≠ 48) by lia.
  assert (Hslot : session_vec (this w)
                    !! N.to_nat (own_session_num (StandIn.server_session true))
                  ≠ Some 32) by (simpl; discriminate).
  destruct (Hptr 32 Hne Hslot) as [Hc Hsv].
  exact (conj Hlen (conj Hc (conj Hsv (Hother 32 Hne)))).
Defined.

(** The server session of slot 0 is buried twice. *)
Lemma bury_session_twice_witness :
  let w := mkWorld (StandIn.live_rpc [48; 32] [] 0)
             (StandIn.live_proc {[ 32 := StandIn.client_session false;
                                   48 := StandIn.server_session true ]}) in
  bury_session 48 (buried 48 0 w) = (Undef, buried 48 0 w).
Proof.
  intros w.
  assert (Hrun : bury_session 48 w = (Ret tt, buried 48 0 w))
    by (vm_compute; reflexivity).
  exact (bury_session_twice 48 w (buried 48 0 w) Hrun).
Defined.

(** A drain of one connect request, and a second call right after it. *)
Lemma drain_twice_witness :
  let w := mkWorld (StandIn.live_rpc [] [StandIn.connect_req] 1)
                   (StandIn.live_proc ∅) in
  let w' := snd (handle_session_management w) in
  session_mgmt_pkt_list (sm_hook (this w')) = []
  ∧ session_mgmt_ev_counter (sm_hook (this w')) = 0
  ∧ session_mgmt_mutex (sm_hook (this w')) = false
  ∧ handle_session_management w' = (Abort, w').
Proof.
  intros w w'.
  assert (Hrun : handle_session_management w = (Ret tt, w'))
    by (vm_compute; reflexivity).
  exact (drain_twice w w' Hrun).
Defined.

(** A drain of a connect request, a packet that reports ("akalia", 3), and
    a disconnect response. *)
Lemma drain_stops_at_first_offender_witness :
  let q := [StandIn.connect_req; StandIn.spoofed_req; StandIn.disconnect_resp] in
  let w := mkWorld (StandIn.live_rpc [] q 3) (StandIn.live_proc ∅) in
  ∃ w',
    handle_session_management w = (Abort, w')
    ∧ trace (proc w')
      = trace (proc w) ++ drain_events [StandIn.connect_req]
    ∧ table w' = drain_table [StandIn.connect_req] (table w)
    ∧ sm_hook (this w') = set_hook_mutex true (sm_hook (this w)).
Proof.
  intros q w.
  assert (Hcnt : 0 < session_mgmt_ev_counter (sm_hook (this w)))
    by (simpl; lia).
  assert (Hn : nexuses (proc w) !! nexus (this w)
               = Some (mkNexus "akalia" {[ 3 ]})) by (vm_compute; reflexivity).
  assert (Hl : session_mgmt_pkt_list (sm_hook (this w))
               = [StandIn.connect_req] ++ StandIn.spoofed_req
                 :: [StandIn.disconnect_resp]) by reflexivity.
  assert (Hpre : ∀ p, p ∈ [StandIn.connect_req] →
            ¬ (SessionMetadata.hostname (requester p) = "akalia"
               ∧ SessionMetadata.app_tid (requester p) = app_tid (this w))).
  { intros p Hp [Hhost Htid].
    apply elem_of_cons in Hp as [->|Hp]; [discriminate Hhost|].
    by apply elem_of_nil in Hp. }
  exact (drain_stops_at_first_offender w (mkNexus "akalia" {[ 3 ]})
           [StandIn.connect_req] [StandIn.disconnect_resp] StandIn.spoofed_req
           Hcnt Hn Hl Hpre eq_refl eq_refl).
Defined.

(** The endpoint with id 3 on "akalia" and an endpoint with id 30 there. *)
Lemma get_name_identifies_witness :
  let w1 := mkWorld (StandIn.live_rpc [] [] 0) (StandIn.live_proc ∅) in
  let w2 := mkWorld (mkRpc 16 0 30 0 0 0 2 2 (mkHook 30 0 false []) [] 42)
                    (StandIn.live_proc ∅) in
  get_name w1 = (Ret "[akalia, 3]", w1)
  ∧ fst (get_name w1) ≠ fst (get_name w2).
Proof.
  intros w1 w2.
  assert (H1 : nexuses (proc w1) !! nexus (this w1)
               = Some (mkNexus "akalia" {[ 3 ]})) by (vm_compute; reflexivity).
  assert (H2 : nexuses (proc w2) !! nexus (this w2)
               = Some (mkNexus "akalia" {[ 3 ]})) by (vm_compute; reflexivity).
  destruct (get_name_identifies w1 w2 _ _ H1 H2) as [Hname Hiff].
  split; [exact Hname|].
  intros E. apply Hiff in E as [_ E]. discriminate E.
Defined.

(** Endpoints with ids 3 and 4, constructed one after the other. *)
Lemma two_endpoints_are_disjoint_witness :
  let pr1 := add_events [EvNewTransport 1; EvNewHugeAlloc 1]
               (StandIn.live_proc ∅) in
  let r1 := StandIn.live_rpc [] [] 0 in
  let r2 := mkRpc 16 0 4 0 1 1 2 2 (mkHook 4 0 false []) [] 42 in
  let pr2 := snd (Rpc_ctor 16 0 4 0 1 1 pr1) in
  3 ≠ 4
  ∧ transport r1 ≠ transport r2
  ∧ huge_alloc r1 ≠ huge_alloc r2
  ∧ transports pr2 !! transport r1 = transports pr1 !! transport r1
  ∧ allocators pr2 !! huge_alloc r1 = allocators pr1 !! huge_alloc r1
  ∧ (∃ n2, nexuses pr2 !! 16 = Some n2 ∧ 3 ∈ reg_hooks n2 ∧ 4 ∈ reg_hooks n2).
Proof.
  intros pr1 r1 r2 pr2.
  assert (Hret2 : Rpc_ctor 16 0 4 0 1 1 pr1 = (Ret r2, pr2))
    by (vm_compute; reflexivity).
  destruct (two_endpoints_are_disjoint 16 0 3 0 0 0 0 4 0 1 1
              StandIn.root_proc r1 r2 pr1 pr2 ctor_on_stand_ins Hret2)
    as (Hid & Ht & Ha & _ & _ & Htk & _ & Hak & _ & Hreg).
  exact (conj Hid (conj Ht (conj Ha (conj Htk (conj Hak Hreg))))).
Defined.
